(** * Gemma MCP client: tool-call detection and dispatch

    A shallow embedding of [apps/gemma_client.py].

    Text is modelled by [string]; a character is a code point below 256, which
    is the whole input alphabet of this development.  Library functions the
    client calls ([re.search], [str.strip], [str.lower], [str.join]) are
    embedded for the fragment the client uses; the collaborators it talks to
    (the MCP session, the ollama model, the terminal, [json.loads]) are the
    fields of an interface the client is parametric in. *)

From Stdlib Require Import String Ascii List ZArith Bool Arith Lia.
From Stdlib Require Import Floats.SpecFloat.
Import ListNotations.
Set Warnings "-register-all".
Local Open Scope list_scope.
Local Open Scope string_scope.

(** ** Strings *)

Module Str.

Definition newline : ascii := "010"%char.

(** The one-character string ["\n"]. *)
Definition nl : string := String newline "".

(** [s[len(p):]] when [s.startswith(p)]. *)
Fixpoint strip_prefix (p s : string) : option string :=
  match p with
  | "" => Some s
  | String a p' =>
      match s with
      | String b s' => if Ascii.eqb a b then strip_prefix p' s' else None
      | "" => None
      end
  end.

(** [p in s] *)
Fixpoint contains (p s : string) : bool :=
  match strip_prefix p s with
  | Some _ => true
  | None => match s with String _ s' => contains p s' | "" => false end
  end.

(** [c in s] for a single character. *)
Fixpoint has_char (c : ascii) (s : string) : bool :=
  match s with
  | "" => false
  | String a s' => Ascii.eqb a c || has_char c s'
  end.

(** [sep.join(l)] *)
Fixpoint join (sep : string) (l : list string) : string :=
  match l with
  | [] => ""
  | [x] => x
  | x :: rest => x ++ sep ++ join sep rest
  end.

(** [str.isspace] on one character of the alphabet. *)
Definition isspace (c : ascii) : bool :=
  let n := nat_of_ascii c in
  (((9 <=? n) && (n <=? 13)) || ((28 <=? n) && (n <=? 32))
   || (n =? 133) || (n =? 160))%nat.

Fixpoint lstrip (s : string) : string :=
  match s with
  | String c s' => if isspace c then lstrip s' else s
  | "" => ""
  end.

(** Drops trailing whitespace: a character is kept when something that is
    kept follows it, or when it is not whitespace. *)
Fixpoint rstrip (s : string) : string :=
  match s with
  | "" => ""
  | String c s' =>
      match rstrip s' with
      | "" => if isspace c then "" else String c ""
      | r => String c r
      end
  end.

(** [s.strip()] *)
Definition strip (s : string) : string := rstrip (lstrip s).

(** [str.lower] on one character of the alphabet: the letters A-Z and the
    upper-case letters of the range 192-222 (215, the multiplication sign,
    is not a letter). *)
Definition lower_char (c : ascii) : ascii :=
  let n := nat_of_ascii c in
  if (((65 <=? n) && (n <=? 90))
      || ((192 <=? n) && (n <=? 222) && negb (n =? 215)))%nat
  then ascii_of_nat (n + 32) else c.

(** [s.lower()] *)
Fixpoint lower (s : string) : string :=
  match s with
  | "" => ""
  | String c s' => String (lower_char c) (lower s')
  end.

End Str.

(** ** The fragment of [re] that [TOOL_PATTERN] is written in *)

Module Re.

(** What one pattern position accepts. *)
Inductive cset : Type :=
| CChar (c : ascii)   (* a literal character *)
| CDot.               (* [.]: anything but a newline (no DOTALL flag) *)

Definition cset_matches (cs : cset) (c : ascii) : bool :=
  match cs with
  | CChar d => Ascii.eqb c d
  | CDot => negb (Ascii.eqb c Str.newline)
  end.

Inductive node : Type :=
| NOne (cs : cset)        (* one character *)
| NLazyStar (cs : cset)   (* [x*?]: as few as possible *)
| NOpen                   (* [(] *)
| NClose.                 (* [)] *)

Definition is_meta (c : ascii) : bool :=
  existsb (Ascii.eqb c)
    ["*"; "+"; "?"; "["; "]"; "{"; "}"; "|"; "^"; "$"; "\"]%char.

(** Patterns made of literals, [.], [x*?] and groups; anything else is not
    in the fragment. *)
Fixpoint compile (p : string) : option (list node) :=
  match p with
  | "" => Some []
  | String c rest =>
      if Ascii.eqb c "(" then option_map (cons NOpen) (compile rest)
      else if Ascii.eqb c ")" then option_map (cons NClose) (compile rest)
      else if is_meta c then None
      else
        let cs := if Ascii.eqb c "." then CDot else CChar c in
        match rest with
        | String "*" (String "?" rest') =>
            option_map (cons (NLazyStar cs)) (compile rest')
        | _ => option_map (cons (NOne cs)) (compile rest)
        end
  end.

(** Backtracking match of a compiled pattern at the start of [s].  [opens]
    holds, for each group that is open, the input as it was at its [(];
    [caps] the text of the groups closed so far (groups that do not nest
    are closed in the order they are numbered). *)
Fixpoint match_here (p : list node) (s : string) (opens caps : list string)
  {struct p} : option (list string) :=
  match p with
  | [] => Some caps
  | NOne cs :: p' =>
      match s with
      | String c s' =>
          if cset_matches cs c then match_here p' s' opens caps else None
      | "" => None
      end
  | NLazyStar cs :: p' =>
      (fix lazy (s : string) : option (list string) :=
         match match_here p' s opens caps with
         | Some r => Some r
         | None =>
             match s with
             | String c s' => if cset_matches cs c then lazy s' else None
             | "" => None
             end
         end) s
  | NOpen :: p' => match_here p' s (s :: opens) caps
  | NClose :: p' =>
      match opens with
      | s0 :: opens' =>
          match_here p' s opens'
            ((caps ++ [substring 0 (String.length s0 - String.length s) s0])%list)
      | [] => None
      end
  end.

(** The leftmost start position at which the pattern matches. *)
Fixpoint search_from (p : list node) (s : string) : option (list string) :=
  match match_here p s [] [] with
  | Some groups => Some groups
  | None =>
      match s with
      | String _ s' => search_from p s'
      | "" => None
      end
  end.

(** [re.search(pattern, text)]: [None], or the groups of the match
    ([Match.groups()]). *)
Definition search (pattern text : string) : option (list string) :=
  match compile pattern with
  | Some p => search_from p text
  | None => None
  end.

End Re.

(** [TOOL_PATTERN = f"```json\n(.*?)\n``"] *)
Definition TOOL_PATTERN : string :=
  "```json" ++ Str.nl ++ "(.*?)" ++ Str.nl ++ "``".

(** The two literal markers of [TOOL_PATTERN]. *)
Definition fence_open : string := "```json" ++ Str.nl.
Definition fence_close : string := Str.nl ++ "``".

(** The compiled form of a literal text. *)
Fixpoint literal (l : string) : list Re.node :=
  match l with
  | "" => []
  | String c l' => Re.NOne (Re.CChar c) :: literal l'
  end.

(** What [TOOL_PATTERN] asks of a text, read directly: after the opening
    marker, the rest of the line, which the closing marker must follow. *)
Fixpoint line_before_close (s : string) : option string :=
  match Str.strip_prefix fence_close s with
  | Some _ => Some ""
  | None =>
      match s with
      | String c s' =>
          if Ascii.eqb c Str.newline then None
          else option_map (String c) (line_before_close s')
      | "" => None
      end
  end.

Definition block_at (s : string) : option string :=
  match Str.strip_prefix fence_open s with
  | Some rest => line_before_close rest
  | None => None
  end.

Fixpoint first_block (s : string) : option string :=
  match block_at s with
  | Some g => Some g
  | None =>
      match s with
      | String _ s' => first_block s'
      | "" => None
      end
  end.

(** [TOOL_PATTERN], compiled. *)
Definition tool_program : list Re.node :=
  match Re.compile TOOL_PATTERN with
  | Some p => p
  | None => []
  end.

(** Whether, in the text [pre ++ rest], the pattern matches at a position
    inside [pre]: [re.search] then stops there, before it reaches [rest]. *)
Fixpoint match_starts_in (pre rest : string) : bool :=
  match pre with
  | "" => false
  | String c pre' =>
      match Re.match_here tool_program (String c pre' ++ rest) [] [] with
      | Some _ => true
      | None => match_starts_in pre' rest
      end
  end.

(** ** Python values and exceptions *)

(** What [json.loads] can return. *)
Inductive pyval : Type :=
| PNone
| PBool (b : bool)
| PInt (n : Z)
| PFloat (x : spec_float)
| PStr (s : string)
| PList (l : list pyval)
| PDict (d : list (string * pyval)).   (* in insertion order, keys distinct *)

(** [bool(v)], the test of [if v:]. *)
Definition truthy (v : pyval) : bool :=
  match v with
  | PNone => false
  | PBool b => b
  | PInt n => negb (Z.eqb n 0)
  | PFloat (S754_zero _) => false
  | PFloat _ => true
  | PStr s => negb (String.eqb s "")
  | PList l => match l with [] => false | _ => true end
  | PDict d => match d with [] => false | _ => true end
  end.

(** An instance of [Exception]: its class and [str(e)].  Everything the
    client and its collaborators raise as an error is one; what is raised
    outside that class ([KeyboardInterrupt], [SystemExit]) is no error of a
    turn and is not modelled. *)
Record exn : Type := MkExn { exn_class : string; exn_str : string }.

Inductive outcome (A : Type) : Type :=
| Return (a : A)
| Raise (e : exn).
Arguments Return {A} a.
Arguments Raise {A} e.

Fixpoint dict_get (d : list (string * pyval)) (key : string) : option pyval :=
  match d with
  | [] => None
  | (k, v) :: d' => if String.eqb k key then Some v else dict_get d' key
  end.

(** [v[key]] for a string key ([str(KeyError(key))] is the key's [repr], its
    text in single quotes for a key of plain letters). *)
Definition getitem (v : pyval) (key : string) : outcome pyval :=
  match v with
  | PDict d =>
      match dict_get d key with
      | Some x => Return x
      | None => Raise (MkExn "KeyError" ("'" ++ key ++ "'"))
      end
  | PList _ =>
      Raise (MkExn "TypeError" "list indices must be integers or slices, not str")
  | PStr _ =>
      Raise (MkExn "TypeError" "string indices must be integers, not 'str'")
  | PNone => Raise (MkExn "TypeError" "'NoneType' object is not subscriptable")
  | PBool _ => Raise (MkExn "TypeError" "'bool' object is not subscriptable")
  | PInt _ => Raise (MkExn "TypeError" "'int' object is not subscriptable")
  | PFloat _ => Raise (MkExn "TypeError" "'float' object is not subscriptable")
  end.

(** [l[0]] *)
Definition first {A : Type} (l : list A) : outcome A :=
  match l with
  | x :: _ => Return x
  | [] => Raise (MkExn "IndexError" "list index out of range")
  end.

(** ** What the collaborators exchange with the client *)

(** A content block of an MCP message or tool result; only a text block has
    a [text] attribute. *)
Inductive content : Type :=
| TextContent (text : string)
| OtherContent (kind : string).

(** [c.text] *)
Definition text_of (c : content) : outcome string :=
  match c with
  | TextContent t => Return t
  | OtherContent kind =>
      Raise (MkExn "AttributeError"
               ("'" ++ kind ++ "' object has no attribute 'text'"))
  end.

Record PromptMessage : Type :=
  MkPromptMessage { pm_role : string; pm_content : content }.

Record Tool : Type :=
  MkTool { tool_name : string; tool_description : string;
           tool_inputSchema : pyval }.

Record Prompt : Type := MkPrompt { prompt_name : string }.

(** One entry of the [messages] list handed to [ollama.chat]. *)
Record ChatMessage : Type := MkChatMessage { role : string; msg_content : string }.

Inductive log_level : Type := DEBUG | INFO.

(** What a turn does to the outside, each call with what it came back with. *)
Inductive event : Type :=
| EListTools (r : outcome (list Tool))
| EListPrompts (r : outcome (list Prompt))
| EGetPrompt (name : string) (arguments : option (list (string * pyval)))
    (r : outcome (list PromptMessage))
| ECallTool (name : string) (arguments : pyval) (r : outcome (list content))
| EChat (model : string) (messages : list ChatMessage) (r : outcome string)
| EInput (prompt : string) (r : outcome string)
| EPrint (text : string)
| ELog (level : log_level) (format : string) (args : list pyval).

(** The collaborators: the MCP [ClientSession], [ollama.chat] (with the
    [response['message']['content']] it answers), the terminal behind
    [input], and [json.loads].  [W] is whatever state they keep. *)
Class Collaborators (W : Type) : Type := {
  session_list_tools : W -> outcome (list Tool) * W;
  session_list_prompts : W -> outcome (list Prompt) * W;
  session_get_prompt :
    string -> option (list (string * pyval)) -> W ->
    outcome (list PromptMessage) * W;
  session_call_tool : string -> pyval -> W -> outcome (list content) * W;
  ollama_chat : string -> list ChatMessage -> W -> outcome string * W;
  builtin_input : string -> W -> outcome string * W;
  json_loads : string -> outcome pyval
}.

(** ** Computations of the client: collaborator state, events, exceptions *)

Definition M (W A : Type) : Type := W -> outcome A * W * list event.

Definition ret {W A : Type} (a : A) : M W A := fun w => (Return a, w, []).

Definition raise {W A : Type} (e : exn) : M W A := fun w => (Raise e, w, []).

Definition bind {W A B : Type} (m : M W A) (f : A -> M W B) : M W B :=
  fun w =>
    match m w with
    | (Return a, w1, t1) =>
        match f a w1 with (r, w2, t2) => (r, w2, (t1 ++ t2)%list) end
    | (Raise e, w1, t1) => (Raise e, w1, t1)
    end.

(** [try: m  except Exception as e: h e].  Every [Raise] is caught: an
    [exn] is an instance of [Exception], and what [except Exception] lets
    through ([KeyboardInterrupt], [SystemExit], [asyncio.CancelledError]) is
    not modelled.  What is proved of the loop is therefore about errors,
    not about those signals. *)
Definition try_except {W A : Type} (m : M W A) (h : exn -> M W A) : M W A :=
  fun w =>
    match m w with
    | (Return a, w1, t1) => (Return a, w1, t1)
    | (Raise e, w1, t1) =>
        match h e w1 with (r, w2, t2) => (r, w2, (t1 ++ t2)%list) end
    end.

(** A pure step that may raise. *)
Definition lift {W A : Type} (r : outcome A) : M W A := fun w => (r, w, []).

(** A call to a collaborator, recorded with its outcome. *)
Definition call {W A : Type} (f : W -> outcome A * W)
  (ev : outcome A -> event) : M W A :=
  fun w => match f w with (r, w') => (r, w', [ev r]) end.

Definition emit {W : Type} (ev : event) : M W unit :=
  fun w => (Return tt, w, [ev]).

Declare Scope client_scope.
Delimit Scope client_scope with client.
Notation "x <- m ;; k" := (bind m (fun x => k))
  (at level 100, m at next level, right associativity) : client_scope.
Notation "m ;; k" := (bind m (fun _ => k))
  (at level 100, right associativity) : client_scope.
Local Open Scope client_scope.

(** Whether the loop goes round again. *)
Inductive ctl : Type := Break | Continue.

(** ** The client *)

Section Client.

Context {W : Type} `{C : Collaborators W}.

Definition print (text : string) : M W unit := emit (EPrint text).

(** [logging.info] and [logging.debug]: the format and its arguments; the
    rendering is left out.  Where the source formats the message itself
    (["Tool call with %s" % v], ["Weather prompt is %s" % text]) the event
    holds that format and that argument all the same. *)
Definition logging_info (format : string) (args : list pyval) : M W unit :=
  emit (ELog INFO format args).
Definition logging_debug (format : string) (args : list pyval) : M W unit :=
  emit (ELog DEBUG format args).

Definition list_tools : M W (list Tool) :=
  call session_list_tools EListTools.
Definition list_prompts : M W (list Prompt) :=
  call session_list_prompts EListPrompts.
Definition get_prompt (name : string)
  (arguments : option (list (string * pyval))) : M W (list PromptMessage) :=
  call (session_get_prompt name arguments) (EGetPrompt name arguments).
Definition call_tool (name : string) (arguments : pyval) : M W (list content) :=
  call (session_call_tool name arguments) (ECallTool name arguments).
Definition chat (model : string) (messages : list ChatMessage) : M W string :=
  call (ollama_chat model messages) (EChat model messages).
Definition input (prompt : string) : M W string :=
  call (builtin_input prompt) (EInput prompt).

(** The default of [model_call]'s [model] argument. *)
Definition default_model : string := "gemma3:4b".

Definition model_call (model_prompt : string) : M W string :=
  chat default_model [MkChatMessage "user" model_prompt].

Definition augmented_model_call (system_prompt user_prompt : string)
  : M W string :=
  let combined_prompt := system_prompt ++ Str.nl ++ user_prompt in
  model_call combined_prompt.

(** [None] when the pattern is not found: the function falls off its end. *)
Definition parse_response (model_response : string) : outcome pyval :=
  match Re.search TOOL_PATTERN model_response with
  | Some groups =>
      match nth_error groups 0 with
      | Some g => json_loads g
      | None => Raise (MkExn "IndexError" "tuple index out of range")
      end
  | None => Return PNone
  end.

(** [m.messages[0].content.text] *)
Definition first_message_text (messages : list PromptMessage) : outcome string :=
  match first messages with
  | Return m => text_of (pm_content m)
  | Raise e => Raise e
  end.

(** [result.content[0].text] *)
Definition first_content_text (blocks : list content) : outcome string :=
  match first blocks with
  | Return c => text_of c
  | Raise e => Raise e
  end.

Definition process_user_prompt (user_prompt : string) : M W string :=
  let messages := [MkChatMessage "user" user_prompt] in
  all_tools <- list_tools ;;
  let available_tools :=
    map (fun tool => (tool_name tool, tool_description tool,
                      tool_inputSchema tool)) all_tools in
  all_prompts <- list_prompts ;;
  let available_prompts := map (fun prompt => prompt) all_prompts in
  prompt <- get_prompt "weather_prompt" None ;;
  system_prompt <- lift (first_message_text prompt) ;;
  model_response <- augmented_model_call system_prompt user_prompt ;;
  function_call_json <- lift (parse_response model_response) ;;
  let final_text : list string := [] in
  let assistant_message_content : list string := [] in
  if truthy function_call_json then
    logging_info "Tool call with %s" [function_call_json] ;;
    result <- call_tool "weather_tool" function_call_json ;;
    weather_result <- lift (first_content_text result) ;;
    city <- lift (getitem function_call_json "city") ;;
    weather_prompt_message <-
      get_prompt "weather_response_prompt"
        (Some [("city", city); ("weather", PStr weather_result)]) ;;
    weather_prompt_text <- lift (first_message_text weather_prompt_message) ;;
    logging_info "Weather prompt is %s" [PStr weather_prompt_text] ;;
    model_response <- model_call weather_prompt_text ;;
    let final_text := (final_text ++ [model_response])%list in
    ret (Str.join Str.nl final_text)
  else
    logging_debug "No tool call" [] ;;
    let final_text := (final_text ++ [model_response])%list in
    let assistant_message_content :=
      (assistant_message_content ++ [model_response])%list in
    ret (Str.join Str.nl final_text).

(** The body of [while True:] in [chat_loop]. *)
Definition chat_loop_body : M W ctl :=
  try_except
    (line <- input (Str.nl ++ "user_prompt: ") ;;
     let user_prompt := Str.strip line in
     logging_info "User prompt is: %s" [PStr user_prompt] ;;
     if String.eqb (Str.lower user_prompt) "q" then ret Break
     else
       response <- process_user_prompt user_prompt ;;
       print (Str.nl ++ response) ;;
       ret Continue)
    (fun e => print (Str.nl ++ "Error: " ++ exn_str e) ;; ret Continue).

(** [while True:] for at most [fuel] rounds: [Some tt] when the loop was
    left by [break], [None] when it is still running. *)
Fixpoint while_true (fuel : nat) : M W (option unit) :=
  match fuel with
  | O => ret None
  | S fuel' =>
      c <- chat_loop_body ;;
      match c with
      | Break => ret (Some tt)
      | Continue => while_true fuel'
      end
  end.

Definition chat_loop (fuel : nat) : M W (option unit) :=
  print (Str.nl ++ "MCP Client Started!") ;;
  print "Type your queries or 'quit' to exit." ;;
  while_true fuel.

End Client.

(** ** Reading a turn off its events *)

(** The text of the first answer of the model, when the first call to it
    came back with one. *)
Fixpoint first_model_response (t : list event) : option string :=
  match t with
  | [] => None
  | EChat _ _ (Return text) :: _ => Some text
  | EChat _ _ (Raise _) :: _ => None
  | _ :: t' => first_model_response t'
  end.

Definition is_model_call (ev : event) : bool :=
  match ev with EChat _ _ _ => true | _ => false end.

Definition is_tool_call (ev : event) : bool :=
  match ev with ECallTool _ _ _ => true | _ => false end.

Definition is_get_prompt (ev : event) : bool :=
  match ev with EGetPrompt _ _ _ => true | _ => false end.

(** A request to the MCP session, of any kind. *)
Definition is_session_call (ev : event) : bool :=
  match ev with
  | EListTools _ | EListPrompts _ | EGetPrompt _ _ _ | ECallTool _ _ _ => true
  | _ => false
  end.

Definition is_print (ev : event) : bool :=
  match ev with EPrint _ => true | _ => false end.

Definition is_input (ev : event) : bool :=
  match ev with EInput _ _ => true | _ => false end.

Definition model_calls (t : list event) : list event := filter is_model_call t.
Definition tool_calls (t : list event) : list event := filter is_tool_call t.
Definition session_calls (t : list event) : list event :=
  filter is_session_call t.
Definition printed (t : list event) : list event := filter is_print t.

(** The texts handed to the model, in order: the [content] of the messages
    of each call. *)
Fixpoint prompts_sent (t : list event) : list string :=
  match t with
  | [] => []
  | EChat _ messages _ :: t' =>
      (map msg_content messages ++ prompts_sent t')%list
  | _ :: t' => prompts_sent t'
  end.

(** The events of a successful turn up to and including the first answer of
    the model. *)
Definition turn_head (tools : list Tool) (prompts : list Prompt)
  (messages : list PromptMessage) (system_prompt user_prompt response : string)
  : list event :=
  [ EListTools (Return tools);
    EListPrompts (Return prompts);
    EGetPrompt "weather_prompt" None (Return messages);
    EChat default_model
      [MkChatMessage "user" (system_prompt ++ Str.nl ++ user_prompt)]
      (Return response) ].

(** The events of the tool branch, after the head. *)
Definition tool_branch_events (arguments : pyval) (blocks : list content)
  (city : pyval) (weather : string) (messages : list PromptMessage)
  (prompt_text : string) (answer : outcome string) : list event :=
  [ ELog INFO "Tool call with %s" [arguments];
    ECallTool "weather_tool" arguments (Return blocks);
    EGetPrompt "weather_response_prompt"
      (Some [("city", city); ("weather", PStr weather)]) (Return messages);
    ELog INFO "Weather prompt is %s" [PStr prompt_text];
    EChat default_model [MkChatMessage "user" prompt_text] answer ].


(** The events of the direct branch, after the head. *)
Definition direct_branch_events : list event :=
  [ ELog DEBUG "No tool call" [] ].

(** A text holds a fenced block of the conventional form: the opening
    marker and, somewhere after it, three backticks. *)
Fixpoint has_fenced_block (s : string) : bool :=
  match Str.strip_prefix fence_open s with
  | Some rest => Str.contains "```" rest
  | None =>
      match s with
      | String _ s' => has_fenced_block s'
      | "" => false
      end
  end.

(** The three parts of what a computation leaves. *)
Definition result_of {W A : Type} (x : outcome A * W * list event)
  : outcome A := fst (fst x).
Definition state_of {W A : Type} (x : outcome A * W * list event) : W :=
  snd (fst x).
Definition events_of {W A : Type} (x : outcome A * W * list event)
  : list event := snd x.

(** ** The runs of a turn

    Every way [process_user_prompt] can go, as the events it leaves and the
    outcome it ends with. *)

Section Runs.

Context {W : Type} `{C : Collaborators W}.

(** After the logged notice of a tool call with arguments [v]. *)
Inductive tool_branch (v : pyval) : outcome string -> list event -> Prop :=
| TB_call_fails e :
    tool_branch v (Raise e) [ECallTool "weather_tool" v (Raise e)]
| TB_no_text blocks e :
    first_content_text blocks = Raise e ->
    tool_branch v (Raise e) [ECallTool "weather_tool" v (Return blocks)]
| TB_no_city blocks weather e :
    first_content_text blocks = Return weather ->
    getitem v "city" = Raise e ->
    tool_branch v (Raise e) [ECallTool "weather_tool" v (Return blocks)]
| TB_prompt_fails blocks weather city e :
    first_content_text blocks = Return weather ->
    getitem v "city" = Return city ->
    tool_branch v (Raise e)
      [ECallTool "weather_tool" v (Return blocks);
       EGetPrompt "weather_response_prompt"
         (Some [("city", city); ("weather", PStr weather)]) (Raise e)]
| TB_prompt_no_text blocks weather city messages e :
    first_content_text blocks = Return weather ->
    getitem v "city" = Return city ->
    first_message_text messages = Raise e ->
    tool_branch v (Raise e)
      [ECallTool "weather_tool" v (Return blocks);
       EGetPrompt "weather_response_prompt"
         (Some [("city", city); ("weather", PStr weather)]) (Return messages)]
| TB_model blocks weather city messages text answer :
    first_content_text blocks = Return weather ->
    getitem v "city" = Return city ->
    first_message_text messages = Return text ->
    tool_branch v answer
      [ECallTool "weather_tool" v (Return blocks);
       EGetPrompt "weather_response_prompt"
         (Some [("city", city); ("weather", PStr weather)]) (Return messages);
       ELog INFO "Weather prompt is %s" [PStr text];
       EChat default_model [MkChatMessage "user" text] answer].

(** After the first answer [response] of the model. *)
Inductive branch (response : string) : outcome string -> list event -> Prop :=
| B_parse_fails e :
    parse_response response = Raise e ->
    branch response (Raise e) []
| B_direct v :
    parse_response response = Return v ->
    truthy v = false ->
    branch response (Return response) direct_branch_events
| B_tool v r t :
    parse_response response = Return v ->
    truthy v = true ->
    tool_branch v r t ->
    branch response r (ELog INFO "Tool call with %s" [v] :: t).

Inductive turn (user_prompt : string) : outcome string -> list event -> Prop :=
| T_list_tools_fails e :
    turn user_prompt (Raise e) [EListTools (Raise e)]
| T_list_prompts_fails tools e :
    turn user_prompt (Raise e)
      [EListTools (Return tools); EListPrompts (Raise e)]
| T_get_prompt_fails tools prompts e :
    turn user_prompt (Raise e)
      [EListTools (Return tools); EListPrompts (Return prompts);
       EGetPrompt "weather_prompt" None (Raise e)]
| T_no_system_text tools prompts messages e :
    first_message_text messages = Raise e ->
    turn user_prompt (Raise e)
      [EListTools (Return tools); EListPrompts (Return prompts);
       EGetPrompt "weather_prompt" None (Return messages)]
| T_model_fails tools prompts messages system_prompt e :
    first_message_text messages = Return system_prompt ->
    turn user_prompt (Raise e)
      [EListTools (Return tools); EListPrompts (Return prompts);
       EGetPrompt "weather_prompt" None (Return messages);
       EChat default_model
         [MkChatMessage "user" (system_prompt ++ Str.nl ++ user_prompt)]
         (Raise e)]
| T_answered tools prompts messages system_prompt response r t :
    first_message_text messages = Return system_prompt ->
    branch response r t ->
    turn user_prompt r
      (turn_head tools prompts messages system_prompt user_prompt response
         ++ t)%list.

End Runs.

(** ** A scripted session, for running the client on concrete turns *)

Module Scenario.

(** The double quote. *)
Definition dq : string := String (ascii_of_nat 34) "".

(** [{"city": "Paris"}] *)
Definition paris_json : string :=
  "{" ++ dq ++ "city" ++ dq ++ ": " ++ dq ++ "Paris" ++ dq ++ "}".

(** [{"city": "Paris"}], one member to a line. *)
Definition paris_json_lines : string :=
  "{" ++ Str.nl ++ "  " ++ dq ++ "city" ++ dq ++ ": " ++ dq ++ "Paris" ++ dq
  ++ Str.nl ++ "}".

(** [{"town": "Paris"}] *)
Definition town_json : string :=
  "{" ++ dq ++ "town" ++ dq ++ ": " ++ dq ++ "Paris" ++ dq ++ "}".

Definition paris_args : pyval := PDict [("city", PStr "Paris")].

(** A block with a closing fence of three backticks. *)
Definition fenced (inner : string) : string :=
  fence_open ++ inner ++ Str.nl ++ "```".

(** A block whose closing fence has only two. *)
Definition short_fenced (inner : string) : string :=
  fence_open ++ inner ++ Str.nl ++ "``".

(** [json.loads] on the texts the scripted turns use. *)
Definition decode (s : string) : outcome pyval :=
  if String.eqb s paris_json then Return paris_args
  else if String.eqb s paris_json_lines then Return paris_args
  else if String.eqb s town_json then Return (PDict [("town", PStr "Paris")])
  else if String.eqb s "{}" then Return (PDict [])
  else if String.eqb s "null" then Return PNone
  else if String.eqb s "false" then Return (PBool false)
  else if String.eqb s "0" then Return (PInt 0)
  else if String.eqb s (dq ++ dq) then Return (PStr "")
  else
    Raise (MkExn "JSONDecodeError" "Expecting value: line 1 column 1 (char 0)").

(** What is left of the script: the answers the model will give, the lines
    the user will type, and whether the weather tool is reachable. *)
Record world : Type :=
  MkWorld { replies : list (outcome string);
            lines : list (outcome string);
            tool_up : bool }.

Definition system_text : string :=
  "You are a weather assistant. Answer with a json block naming the city.".

Definition weather_tool : Tool :=
  MkTool "weather_tool" "Weather of a city"
    (PDict [("type", PStr "object")]).

Definition scripted_get_prompt (name : string)
  (arguments : option (list (string * pyval))) (w : world)
  : outcome (list PromptMessage) * world :=
  if String.eqb name "weather_prompt" then
    (Return [MkPromptMessage "user" (TextContent system_text)], w)
  else if String.eqb name "weather_response_prompt" then
    match arguments with
    | Some d =>
        match dict_get d "city", dict_get d "weather" with
        | Some (PStr c), Some (PStr t) =>
            (Return [MkPromptMessage "user"
                       (TextContent ("The weather in " ++ c ++ " is " ++ t))], w)
        | _, _ => (Raise (MkExn "McpError" "Invalid prompt arguments"), w)
        end
    | None => (Raise (MkExn "McpError" "Missing prompt arguments"), w)
    end
  else (Raise (MkExn "McpError" ("Unknown prompt: " ++ name)), w).

Definition scripted_call_tool (name : string) (arguments : pyval) (w : world)
  : outcome (list content) * world :=
  if tool_up w && String.eqb name "weather_tool" then
    (Return [TextContent "Sunny, 20C"], w)
  else (Raise (MkExn "McpError" "Connection closed"), w).

Definition scripted_chat (model : string) (messages : list ChatMessage)
  (w : world) : outcome string * world :=
  match replies w with
  | r :: rest => (r, MkWorld rest (lines w) (tool_up w))
  | [] => (Raise (MkExn "ConnectionError" "Failed to connect to Ollama"), w)
  end.

Definition scripted_input (prompt : string) (w : world)
  : outcome string * world :=
  match lines w with
  | l :: rest => (l, MkWorld (replies w) rest (tool_up w))
  | [] => (Raise (MkExn "EOFError" "EOF when reading a line"), w)
  end.

#[export] Instance scripted : Collaborators world := {
  session_list_tools := fun w => (Return [weather_tool], w);
  session_list_prompts := fun w =>
    (Return [MkPrompt "weather_prompt"; MkPrompt "weather_response_prompt"], w);
  session_get_prompt := scripted_get_prompt;
  session_call_tool := scripted_call_tool;
  ollama_chat := scripted_chat;
  builtin_input := scripted_input;
  json_loads := decode
}.

(** A session in which the model gives [answers], in order, and the user
    types [typed]. *)
Definition script (answers typed : list string) : world :=
  MkWorld (map Return answers) (map Return typed) true.

(** The sessions of the concrete turns below. *)
Definition asks_sum : world := script ["4"] [" What is 2+2? "].
Definition asks_weather : world :=
  script [fenced paris_json; "It is sunny in Paris."] ["weather in Paris"].
Definition answers_empty : world :=
  script [fenced "{}"; "It is sunny in Paris."] ["weather in Paris"].

End Scenario.

(** The error a call to the session or to the model came back with, if it
    came back with one. *)
Definition failure_of (ev : event) : option exn :=
  match ev with
  | EListTools (Raise e) | EListPrompts (Raise e) | EGetPrompt _ _ (Raise e)
  | ECallTool _ _ (Raise e) | EChat _ _ (Raise e) => Some e
  | _ => None
  end.

(** ** [repr] of the names the client prints *)

Module Repr.

Definition hex_digit (n : nat) : ascii :=
  nth n ["0"; "1"; "2"; "3"; "4"; "5"; "6"; "7"; "8"; "9";
         "a"; "b"; "c"; "d"; "e"; "f"]%char "0"%char.

(** The two hexadecimal digits of a character. *)
Definition hex2 (c : ascii) : string :=
  let n := nat_of_ascii c in
  String (hex_digit (n / 16)) (String (hex_digit (n mod 16)) "").

(** [str.isprintable] on one character of the alphabet. *)
Definition isprintable (c : ascii) : bool :=
  let n := nat_of_ascii c in
  (((32 <=? n) && (n <=? 126)) || ((161 <=? n) && negb (n =? 173)))%nat.

Definition double_quote : ascii := ascii_of_nat 34.
Definition single_quote : ascii := "'"%char.
Definition backslash : ascii := "\"%char.

(** How [repr] writes one character inside the quotes [quote]. *)
Definition escape (quote c : ascii) : string :=
  if Ascii.eqb c quote || Ascii.eqb c backslash then
    String backslash (String c "")
  else if Ascii.eqb c (ascii_of_nat 9) then "\t"
  else if Ascii.eqb c Str.newline then "\n"
  else if Ascii.eqb c (ascii_of_nat 13) then "\r"
  else if isprintable c then String c ""
  else "\x" ++ hex2 c.

Fixpoint escape_all (quote : ascii) (s : string) : string :=
  match s with
  | "" => ""
  | String c s' => escape quote c ++ escape_all quote s'
  end.

(** [repr(s)] for a string: in single quotes, unless the text has a single
    quote and no double quote. *)
Definition repr_str (s : string) : string :=
  let quote :=
    if Str.has_char single_quote s && negb (Str.has_char double_quote s)
    then double_quote else single_quote in
  String quote (escape_all quote s ++ String quote "").

(** [repr(l)] for a list of strings. *)
Definition repr_list (l : list string) : string :=
  "[" ++ Str.join ", " (map repr_str l) ++ "]".

End Repr.

(** ** Start-up and shutdown

    [MCPClient.__init__], [connect_to_server], [cleanup] and [main].  The
    client keeps an [AsyncExitStack]: the context managers it has entered,
    the latest first. *)

(** The two context managers the client enters: [stdio_client] on the server
    parameters (command, arguments; [env] is [None]), and the
    [ClientSession] on the streams the first one gave. *)
Inductive resource : Type :=
| StdioClient (command : string) (args : list string)
| SessionContext.

(** What start-up and shutdown ask of the outside, besides the
    collaborators of a turn: [__aenter__] and [__aexit__] of a context
    manager ([__aexit__] is given the exception in flight, if any, and
    answers whether it swallows it), and [session.initialize()]. *)
Class Lifecycle (W : Type) : Type := {
  aenter : resource -> W -> outcome unit * W;
  aexit : resource -> option exn -> W -> outcome bool * W;
  session_initialize : W -> outcome unit * W
}.

Inductive boot_event : Type :=
| BEnter (r : resource) (o : outcome unit)
| BExit (r : resource) (in_flight : option exn) (o : outcome bool)
| BInitialize (o : outcome unit)
| BClient (ev : event).

(** Computations that also hold the exit stack of the client. *)
Definition B (W A : Type) : Type :=
  list resource -> W -> outcome A * list resource * W * list boot_event.

Definition retB {W A : Type} (a : A) : B W A :=
  fun stack w => (Return a, stack, w, []).

Definition bindB {W A X : Type} (m : B W A) (f : A -> B W X) : B W X :=
  fun stack w =>
    match m stack w with
    | (Return a, stack1, w1, t1) =>
        match f a stack1 w1 with
        | (r, stack2, w2, t2) => (r, stack2, w2, (t1 ++ t2)%list)
        end
    | (Raise e, stack1, w1, t1) => (Raise e, stack1, w1, t1)
    end.

(** A computation of the client proper: it leaves the exit stack alone. *)
Definition client {W A : Type} (m : M W A) : B W A :=
  fun stack w =>
    match m w with (r, w', t) => (r, stack, w', map BClient t) end.

Declare Scope boot_scope.
Delimit Scope boot_scope with boot.
Notation "x <- m ;; k" := (bindB m (fun x => k))
  (at level 100, m at next level, right associativity) : boot_scope.
Notation "m ;; k" := (bindB m (fun _ => k))
  (at level 100, right associativity) : boot_scope.

(** The contexts a run entered, and the ones it left, in the order it did. *)
Fixpoint entered (t : list boot_event) : list resource :=
  match t with
  | [] => []
  | BEnter r (Return _) :: t' => r :: entered t'
  | _ :: t' => entered t'
  end.

Fixpoint exited (t : list boot_event) : list resource :=
  match t with
  | [] => []
  | BExit r _ _ :: t' => r :: exited t'
  | _ :: t' => exited t'
  end.

(** The events of the client proper among those of a run. *)
Fixpoint client_events (t : list boot_event) : list event :=
  match t with
  | [] => []
  | BClient ev :: t' => ev :: client_events t'
  | _ :: t' => client_events t'
  end.

Section Boot.

Context {W : Type} `{C : Collaborators W} `{L : Lifecycle W}.

(** [await self.exit_stack.enter_async_context(cm)]: the context is put on
    the stack once it has been entered. *)
Definition enter_async_context (cm : resource) : B W unit :=
  fun stack w =>
    match aenter cm w with
    | (Return tt, w') => (Return tt, cm :: stack, w', [BEnter cm (Return tt)])
    | (Raise e, w') => (Raise e, stack, w', [BEnter cm (Raise e)])
    end.

(** The loop of [AsyncExitStack.__aexit__]: the contexts are left latest
    first; each is given the exception in flight; one that raises puts its
    exception in flight instead, one that answers true clears it. *)
Fixpoint exit_all (stack : list resource) (in_flight : option exn) (w : W)
  : option exn * W * list boot_event :=
  match stack with
  | [] => (in_flight, w, [])
  | cm :: rest =>
      match aexit cm in_flight w with
      | (o, w') =>
          let in_flight' :=
            match o with
            | Return true => None
            | Return false => in_flight
            | Raise e => Some e
            end in
          match exit_all rest in_flight' w' with
          | (p, w'', t) => (p, w'', BExit cm in_flight o :: t)
          end
      end
  end.

(** [await self.exit_stack.aclose()] *)
Definition aclose : B W unit :=
  fun stack w =>
    match exit_all stack None w with
    | (Some e, w', t) => (Raise e, [], w', t)
    | (None, w', t) => (Return tt, [], w', t)
    end.

Definition initialize : B W unit :=
  fun stack w =>
    match session_initialize w with
    | (o, w') => (o, stack, w', [BInitialize o])
    end.

Local Open Scope boot_scope.

Definition connect_to_server (server_script_path : string) : B W unit :=
  let server_params := StdioClient "python" [server_script_path] in
  enter_async_context server_params ;;
  enter_async_context SessionContext ;;
  initialize ;;
  tools <- client list_tools ;;
  client
    (print (Str.nl ++ "Connected to server with tools:" ++ " "
            ++ Repr.repr_list (map tool_name tools))).

Definition cleanup : B W unit := aclose.

(** [main], with the loop given [fuel] rounds: [Return None] when the loop
    is still running, and nothing has been cleaned up yet.  The client is
    made with an empty exit stack. *)
Definition main (fuel : nat) (w : W)
  : outcome (option unit) * list resource * W * list boot_event :=
  let server := "weather_server.py" in
  match (connect_to_server server ;; client (chat_loop fuel)) [] w with
  | (Return None, stack, w1, t1) => (Return None, stack, w1, t1)
  | (r, stack, w1, t1) =>
      match cleanup stack w1 with
      | (Return _, stack2, w2, t2) => (r, stack2, w2, (t1 ++ t2)%list)
      | (Raise e, stack2, w2, t2) => (Raise e, stack2, w2, (t1 ++ t2)%list)
      end
  end.

End Boot.

(** No context manager raised while it was left. *)
Fixpoint quiet (t : list boot_event) : bool :=
  match t with
  | [] => true
  | BExit _ _ (Raise _) :: _ => false
  | _ :: t' => quiet t'
  end.

(** What a step done on the stack [stack] keeps: it leaves no context, and
    the contexts it entered are on the stack it hands on, the latest on
    top. *)
Definition tracks {W A : Type} (stack : list resource)
  (x : outcome A * list resource * W * list boot_event) : Prop :=
  match x with
  | (_, stack', _, t) =>
      stack' = (rev (entered t) ++ stack)%list /\ exited t = []
  end.

(** ** More scripted sessions *)

Module Outage.

(** The scripted session with the MCP server gone: every request to the
    session fails. *)
Definition closed : exn := MkExn "McpError" "Connection closed".

#[export] Instance unreachable : Collaborators Scenario.world := {
  session_list_tools := fun w => (Raise closed, w);
  session_list_prompts := fun w => (Raise closed, w);
  session_get_prompt := fun _ _ w => (Raise closed, w);
  session_call_tool := fun _ _ w => (Raise closed, w);
  ollama_chat := Scenario.scripted_chat;
  builtin_input := Scenario.scripted_input;
  json_loads := Scenario.decode
}.


(** The weather tool cannot be reached. *)
Definition tool_down : Scenario.world :=
  Scenario.MkWorld [Return (Scenario.fenced Scenario.paris_json)] [] false.

(** The model names a town where a city is asked for. *)
Definition asks_town : Scenario.world :=
  Scenario.script [Scenario.fenced Scenario.town_json; "It is sunny."] [].



End Outage.

Module Startup.

(** A scripted session with its start-up: whether the server process can be
    started, and whether the session answers [initialize]. *)
Record world : Type :=
  MkWorld { session : Scenario.world;
            server_starts : bool;
            handshake_ok : bool }.

Definition on_session {A : Type}
  (f : Scenario.world -> outcome A * Scenario.world) (w : world)
  : outcome A * world :=
  match f (session w) with
  | (r, s') => (r, MkWorld s' (server_starts w) (handshake_ok w))
  end.

#[export] Instance collaborators : Collaborators world :=
  let inner := Scenario.scripted in {|
  session_list_tools := on_session session_list_tools;
  session_list_prompts := on_session session_list_prompts;
  session_get_prompt := fun name arguments =>
    on_session (session_get_prompt name arguments);
  session_call_tool := fun name arguments =>
    on_session (session_call_tool name arguments);
  ollama_chat := fun model messages =>
    on_session (ollama_chat model messages);
  builtin_input := fun prompt => on_session (builtin_input prompt);
  json_loads := Scenario.decode
|}.

#[export] Instance lifecycle : Lifecycle world := {
  aenter := fun cm w =>
    match cm with
    | StdioClient _ _ =>
        if server_starts w then (Return tt, w)
        else (Raise (MkExn "FileNotFoundError" "No such file or directory"), w)
    | SessionContext => (Return tt, w)
    end;
  aexit := fun _ _ w => (Return false, w);
  session_initialize := fun w =>
    if handshake_ok w then (Return tt, w)
    else (Raise (MkExn "McpError" "Connection closed"), w)
}.

(** The user asks one question and quits. *)
Definition one_question : world :=
  MkWorld (Scenario.script ["4"] ["What is 2+2?"; "q"]) true true.

(** The server script is missing. *)
Definition no_server : world :=
  MkWorld (Scenario.script ["4"] ["What is 2+2?"; "q"]) false true.

(** The server starts and does not answer the handshake. *)
Definition no_handshake : world :=
  MkWorld (Scenario.script ["4"] ["What is 2+2?"; "q"]) true false.

End Startup.

(** * Properties *)

(** ** Strings *)

Section StringFacts.

Lemma append_assoc (a b c : string) : (a ++ b) ++ c = a ++ (b ++ c).
Proof. induction a as [|x a IH]; simpl; [reflexivity | now rewrite IH]. Qed.

Lemma append_nil_r (a : string) : a ++ "" = a.
Proof. induction a as [|x a IH]; simpl; [reflexivity | now rewrite IH]. Qed.

Lemma length_append (a b : string) :
  String.length (a ++ b) = String.length a + String.length b.
Proof. induction a as [|x a IH]; simpl; [reflexivity | now rewrite IH]. Qed.

Lemma substring_all (a : string) : substring 0 (String.length a) a = a.
Proof. induction a as [|x a IH]; simpl; [reflexivity | now rewrite IH]. Qed.

Lemma substring_prefix (a b : string) :
  substring 0 (String.length a) (a ++ b) = a.
Proof.
  induction a as [|x a IH]; simpl.
  - destruct b; reflexivity.
  - now rewrite IH.
Qed.

Lemma substring_consumed (a s : string) :
  substring 0 (String.length (a ++ s) - String.length s) (a ++ s) = a.
Proof.
  rewrite length_append.
  replace (String.length a + String.length s - String.length s)
    with (String.length a) by lia.
  apply substring_prefix.
Qed.

Lemma substring_suffix (a b : string) :
  substring (String.length a) (String.length b) (a ++ b) = b.
Proof. induction a as [|x a IH]; simpl; [apply substring_all | exact IH]. Qed.

Lemma get_append_at (a b : string) (c : ascii) :
  String.get (String.length a) (a ++ String c b) = Some c.
Proof. induction a as [|x a IH]; simpl; [reflexivity | exact IH]. Qed.

Lemma strip_prefix_app (p s : string) : Str.strip_prefix p (p ++ s) = Some s.
Proof.
  induction p as [|a p IH]; simpl; [reflexivity |].
  now rewrite Ascii.eqb_refl.
Qed.

Lemma strip_prefix_some (p s r : string) :
  Str.strip_prefix p s = Some r -> s = p ++ r.
Proof.
  revert s. induction p as [|a p IH]; simpl; intros s H.
  - now inversion H.
  - destruct s as [|b s]; [discriminate |].
    destruct (Ascii.eqb_spec a b) as [-> | _]; [| discriminate].
    now rewrite (IH _ H).
Qed.

Lemma contains_tail (p s : string) (c : ascii) :
  Str.contains p (String c s) = false -> Str.contains p s = false.
Proof.
  simpl. destruct (Str.strip_prefix p (String c s)); [discriminate | tauto].
Qed.

Lemma contains_head (p s : string) :
  Str.contains p s = false -> Str.strip_prefix p s = None.
Proof.
  destruct s; simpl; destruct (Str.strip_prefix p _); congruence.
Qed.

End StringFacts.

(** ** The pattern *)

Section PatternFacts.

Lemma compile_TOOL_PATTERN :
  Re.compile TOOL_PATTERN
  = Some (literal fence_open
            ++ Re.NOpen :: Re.NLazyStar Re.CDot :: Re.NClose
            :: literal fence_close)%list.
Proof. reflexivity. Qed.

Lemma match_here_literal (l : string) (p : list Re.node) (s : string)
  (opens caps : list string) :
  Re.match_here (literal l ++ p)%list s opens caps
  = match Str.strip_prefix l s with
    | Some rest => Re.match_here p rest opens caps
    | None => None
    end.
Proof.
  revert s. induction l as [|a l IH]; intros s; simpl.
  - reflexivity.
  - destruct s as [|b s]; [reflexivity |].
    rewrite (Ascii.eqb_sym b a).
    destruct (Ascii.eqb a b); [apply IH | reflexivity].
Qed.

Lemma match_here_lazy (cs : Re.cset) (p : list Re.node) (s : string)
  (opens caps : list string) :
  Re.match_here (Re.NLazyStar cs :: p) s opens caps
  = match Re.match_here p s opens caps with
    | Some r => Some r
    | None =>
        match s with
        | String c s' =>
            if Re.cset_matches cs c
            then Re.match_here (Re.NLazyStar cs :: p) s' opens caps
            else None
        | "" => None
        end
    end.
Proof. destruct s; reflexivity. Qed.

Lemma match_here_close (s s0 : string) :
  Re.match_here (Re.NClose :: literal fence_close) s [s0] []
  = match Str.strip_prefix fence_close s with
    | Some _ => Some [substring 0 (String.length s0 - String.length s) s0]
    | None => None
    end.
Proof.
  change (Re.match_here (Re.NClose :: literal fence_close) s [s0] [])
    with (Re.match_here (literal fence_close ++ [])%list s []
            [substring 0 (String.length s0 - String.length s) s0]).
  rewrite match_here_literal.
  destruct (Str.strip_prefix fence_close s); reflexivity.
Qed.

Lemma match_here_line (s a : string) :
  Re.match_here (Re.NLazyStar Re.CDot :: Re.NClose :: literal fence_close)
    s [a ++ s] []
  = option_map (fun g => [a ++ g]) (line_before_close s).
Proof.
  revert a. induction s as [|c s IH]; intros a.
  - rewrite match_here_lazy, match_here_close. reflexivity.
  - rewrite match_here_lazy, match_here_close.
    rewrite substring_consumed.
    cbn [line_before_close].
    destruct (Str.strip_prefix fence_close (String c s)) as [r|].
    + cbn [option_map]. now rewrite append_nil_r.
    + cbn [Re.cset_matches].
      destruct (Ascii.eqb c Str.newline); cbn [negb]; [reflexivity |].
      replace (a ++ String c s) with ((a ++ String c "") ++ s)
        by (rewrite append_assoc; reflexivity).
      rewrite IH.
      destruct (line_before_close s) as [g|]; cbn [option_map]; [| reflexivity].
      now rewrite append_assoc.
Qed.

Lemma match_here_block (s : string) :
  Re.match_here
    (literal fence_open
       ++ Re.NOpen :: Re.NLazyStar Re.CDot :: Re.NClose
       :: literal fence_close)%list s [] []
  = option_map (fun g => [g]) (block_at s).
Proof.
  rewrite match_here_literal. unfold block_at.
  destruct (Str.strip_prefix fence_open s) as [rest|]; [| reflexivity].
  cbn [Re.match_here].
  apply (match_here_line rest "").
Qed.

Lemma search_first_block (s : string) :
  Re.search TOOL_PATTERN s = option_map (fun g => [g]) (first_block s).
Proof.
  unfold Re.search. rewrite compile_TOOL_PATTERN.
  induction s as [|c s IH]; cbn [Re.search_from first_block];
    rewrite match_here_block;
    destruct (block_at _); cbn [option_map]; try reflexivity.
  exact IH.
Qed.

End PatternFacts.

(** ** Where the pattern matches *)

Section BlockFacts.

Lemma strip_close_other (c : ascii) (s : string) :
  Ascii.eqb c Str.newline = false ->
  Str.strip_prefix fence_close (String c s) = None.
Proof.
  intros Hc. cbn [fence_close Str.nl append Str.strip_prefix].
  now rewrite (Ascii.eqb_sym Str.newline c), Hc.
Qed.

Lemma line_before_close_intro (g rest : string) :
  Str.has_char Str.newline g = false ->
  line_before_close (g ++ fence_close ++ rest) = Some g.
Proof.
  induction g as [|c g IH]; intros Hg.
  - change ("" ++ fence_close ++ rest) with (fence_close ++ rest).
    destruct rest; reflexivity.
  - simpl in Hg. apply orb_false_elim in Hg as [Hc Hg].
    change (String c g ++ fence_close ++ rest)
      with (String c (g ++ fence_close ++ rest)).
    cbn [line_before_close].
    rewrite (strip_close_other _ _ Hc), Hc, (IH Hg). reflexivity.
Qed.

Lemma line_before_close_elim (s g : string) :
  line_before_close s = Some g ->
  Str.has_char Str.newline g = false
  /\ exists rest, s = g ++ fence_close ++ rest.
Proof.
  revert g. induction s as [|c s IH]; intros g H.
  - discriminate.
  - cbn [line_before_close] in H.
    destruct (Str.strip_prefix fence_close (String c s)) as [r|] eqn:E.
    + inversion H; subst g. split; [reflexivity |].
      exists r. exact (strip_prefix_some _ _ _ E).
    + destruct (Ascii.eqb c Str.newline) eqn:Hc; [discriminate |].
      destruct (line_before_close s) as [g'|]; [| discriminate].
      inversion H; subst g.
      destruct (IH g' eq_refl) as [Hg' [rest ->]].
      split; [cbn [Str.has_char]; now rewrite Hc | now exists rest].
Qed.

Lemma block_at_intro (g rest : string) :
  Str.has_char Str.newline g = false ->
  block_at (fence_open ++ g ++ fence_close ++ rest) = Some g.
Proof.
  intros Hg. unfold block_at. rewrite strip_prefix_app.
  now apply line_before_close_intro.
Qed.

Lemma block_at_elim (s g : string) :
  block_at s = Some g ->
  Str.has_char Str.newline g = false
  /\ exists rest, s = fence_open ++ g ++ fence_close ++ rest.
Proof.
  unfold block_at. intros H.
  destruct (Str.strip_prefix fence_open s) as [r|] eqn:E; [| discriminate].
  apply strip_prefix_some in E. subst s.
  destruct (line_before_close_elim _ _ H) as [Hg [rest ->]].
  split; [exact Hg | now exists rest].
Qed.

Lemma strip_prefix_cons_inv (a c : ascii) (p s r : string) :
  Str.strip_prefix (String a p) (String c s) = Some r ->
  c = a /\ Str.strip_prefix p s = Some r.
Proof.
  cbn [Str.strip_prefix].
  destruct (Ascii.eqb_spec a c) as [-> | _]; [tauto | discriminate].
Qed.

(** One more character of [pre] read against the opening marker. *)
Ltac peel E pre :=
  destruct pre as [| ? pre];
  [ cbn in E; discriminate
  | cbn [append] in E; apply strip_prefix_cons_inv in E as [-> E] ].

(** The opening marker does not overlap itself: it cannot start inside a
    text that does not hold it and run over into a copy that follows. *)
Lemma no_straddle (pre rest : string) :
  pre <> "" ->
  Str.contains fence_open pre = false ->
  Str.strip_prefix fence_open (pre ++ fence_open ++ rest) = None.
Proof.
  intros Hne H.
  destruct (Str.strip_prefix fence_open (pre ++ fence_open ++ rest))
    as [r|] eqn:E; [exfalso | reflexivity].
  unfold fence_open, Str.nl, Str.newline in E, H. cbn [append] in E, H.
  destruct pre as [| c1 pre]; [congruence |].
  cbn [append] in E. apply strip_prefix_cons_inv in E as [-> E].
  do 7 (peel E pre).
  cbn in H. discriminate.
Qed.

End BlockFacts.

(** ** What the search finds *)

Section SearchFacts.

Lemma first_block_skip (pre s : string) :
  (forall a b, pre = a ++ b -> b <> "" -> block_at (b ++ s) = None) ->
  first_block (pre ++ s) = first_block s.
Proof.
  induction pre as [|c pre IH]; intros H; [reflexivity |].
  change (String c pre ++ s) with (String c (pre ++ s)).
  cbn [first_block].
  change (String c (pre ++ s)) with (String c pre ++ s).
  rewrite (H "" (String c pre) eq_refl) by discriminate.
  apply IH. intros a b -> Hb.
  apply (H (String c a) b); [reflexivity | exact Hb].
Qed.

Lemma contains_suffix (p a b : string) :
  Str.contains p (a ++ b) = false -> Str.contains p b = false.
Proof.
  induction a as [|c a IH]; intros H; [exact H |].
  apply IH. exact (contains_tail _ _ _ H).
Qed.

(** A text that does not hold the opening marker holds no block. *)
Lemma first_block_absent (s : string) :
  Str.contains fence_open s = false -> first_block s = None.
Proof.
  induction s as [|c s IH]; intros H.
  - reflexivity.
  - cbn [first_block]. unfold block_at.
    rewrite (contains_head _ _ H).
    apply IH. exact (contains_tail _ _ _ H).
Qed.

(** The first opening marker, followed by a line and the closing marker, is
    the match. *)
Lemma first_block_intro (pre g rest : string) :
  Str.contains fence_open pre = false ->
  Str.has_char Str.newline g = false ->
  first_block (pre ++ fence_open ++ g ++ fence_close ++ rest) = Some g.
Proof.
  intros Hpre Hg.
  rewrite first_block_skip.
  - destruct (fence_open ++ g ++ fence_close ++ rest) eqn:E;
      [discriminate |].
    rewrite <- E. clear E.
    assert (B := block_at_intro g rest Hg).
    destruct (fence_open ++ g ++ fence_close ++ rest) eqn:E;
      cbn [first_block]; now rewrite B.
  - intros a b -> Hb. unfold block_at.
    rewrite no_straddle; [reflexivity | exact Hb |].
    exact (contains_suffix _ _ _ Hpre).
Qed.

Lemma match_starts_in_none (pre s : string) :
  match_starts_in pre s = false ->
  forall a b, pre = a ++ b -> b <> "" -> block_at (b ++ s) = None.
Proof.
  induction pre as [|c pre IH]; intros H a b E Hb.
  - destruct a; [| discriminate E]. cbn in E. now subst b.
  - cbn [match_starts_in] in H.
    change tool_program
      with (literal fence_open
              ++ Re.NOpen :: Re.NLazyStar Re.CDot :: Re.NClose
              :: literal fence_close)%list in H.
    rewrite match_here_block in H.
    destruct (block_at (String c pre ++ s)) as [g|] eqn:B;
      [discriminate H |].
    destruct a as [|x a].
    + cbn in E. now subst b.
    + injection E as _ E. exact (IH H a b E Hb).
Qed.

(** The match is where the pattern first matches: at the block that no
    match precedes. *)
Lemma first_block_found (pre g rest : string) :
  match_starts_in pre (fence_open ++ g ++ fence_close ++ rest) = false ->
  Str.has_char Str.newline g = false ->
  first_block (pre ++ fence_open ++ g ++ fence_close ++ rest) = Some g.
Proof.
  intros Hpre Hg.
  rewrite (first_block_skip pre _ (match_starts_in_none _ _ Hpre)).
  assert (B := block_at_intro g rest Hg).
  destruct (fence_open ++ g ++ fence_close ++ rest) eqn:E;
    cbn [first_block]; now rewrite B.
Qed.

(** Whatever the search returns is a line between the two markers. *)
Lemma first_block_elim (s g : string) :
  first_block s = Some g ->
  Str.has_char Str.newline g = false
  /\ exists pre rest, s = pre ++ fence_open ++ g ++ fence_close ++ rest.
Proof.
  induction s as [|c s IH]; cbn [first_block]; intros H.
  - destruct (block_at "") eqn:B; [| discriminate].
    inversion H; subst. destruct (block_at_elim _ _ B) as [Hg [rest E]].
    split; [exact Hg | now exists "", rest].
  - destruct (block_at (String c s)) eqn:B.
    + inversion H; subst. destruct (block_at_elim _ _ B) as [Hg [rest E]].
      split; [exact Hg | now exists "", rest].
    + destruct (IH H) as [Hg [pre [rest ->]]].
      split; [exact Hg | now exists (String c pre), rest].
Qed.

End SearchFacts.

(** ** The client, step by step *)

Section ClientFacts.

Context {W : Type} `{C : Collaborators W}.

(** [parse_response] in terms of the first block of the text. *)
Lemma parse_response_first_block (text : string) :
  parse_response text
  = match first_block text with
    | Some g => json_loads g
    | None => Return PNone
    end.
Proof.
  unfold parse_response. rewrite search_first_block.
  destruct (first_block text); reflexivity.
Qed.

Lemma parse_response_search (text g : string) :
  Re.search TOOL_PATTERN text = Some [g] ->
  parse_response text = json_loads g.
Proof. unfold parse_response. now intros ->. Qed.

Lemma parse_response_no_marker (text : string) :
  Str.contains fence_open text = false ->
  parse_response text = Return PNone.
Proof.
  intros H. rewrite parse_response_first_block.
  now rewrite (first_block_absent _ H).
Qed.

(** Where [parse_response] does not return [None], the text holds the
    opening marker, a line, and the two backticks of the closing marker on
    the next line; what is returned is what [json.loads] makes of the line. *)
Lemma parse_response_cases (text : string) :
  parse_response text = Return PNone
  \/ exists pre g rest,
       text = pre ++ fence_open ++ g ++ Str.nl ++ "``" ++ rest
       /\ Str.has_char Str.newline g = false
       /\ parse_response text = json_loads g.
Proof.
  rewrite parse_response_first_block.
  destruct (first_block text) as [g|] eqn:E; [right | now left].
  destruct (first_block_elim _ _ E) as [Hg [pre [rest ->]]].
  now exists pre, g, rest.
Qed.

End ClientFacts.

(** ** Executions, one step at a time *)

(** Runs one collaborator call of the goal's computation, in both of its
    outcomes. *)
Ltac run_call f :=
  let r := fresh "r" in
  let w := fresh "w" in
  let E := fresh "E" in
  destruct f as [r w] eqn:E; destruct r; cbn [app].

Ltac run_pure f :=
  let E := fresh "E" in
  destruct f eqn:E; cbn [app].

Ltac finish H := inversion H; subst; clear H.

Section MonadFacts.

Context {W : Type}.

Lemma bind_inv {A B : Type} (m : M W A) (f : A -> M W B) (w : W)
  (r : outcome B) (w' : W) (t : list event) :
  bind m f w = (r, w', t) ->
  (exists e, m w = (Raise e, w', t) /\ r = Raise e)
  \/ (exists a w1 t1 t2,
        m w = (Return a, w1, t1) /\ f a w1 = (r, w', t2)
        /\ t = (t1 ++ t2)%list).
Proof.
  unfold bind. destruct (m w) as [[[a | e] w1] t1].
  - destruct (f a w1) as [[r2 w2] t2] eqn:F. intros H. finish H.
    right. now exists a, w1, t1, t2.
  - intros H. finish H. left. now exists e.
Qed.

Lemma call_inv {A : Type} (f : W -> outcome A * W) (ev : outcome A -> event)
  (w : W) (r : outcome A) (w' : W) (t : list event) :
  call f ev w = (r, w', t) -> f w = (r, w') /\ t = [ev r].
Proof.
  unfold call. destruct (f w) as [r0 w0]. intros H. now finish H.
Qed.

Lemma lift_inv {A : Type} (o r : outcome A) (w w' : W) (t : list event) :
  @lift W A o w = (r, w', t) -> r = o /\ w' = w /\ t = [].
Proof. unfold lift. intros H. now finish H. Qed.

Lemma emit_inv (ev : event) (w w' : W) (r : outcome unit) (t : list event) :
  emit ev w = (r, w', t) -> r = Return tt /\ w' = w /\ t = [ev].
Proof. unfold emit. intros H. now finish H. Qed.

Lemma ret_inv {A : Type} (a : A) (w w' : W) (r : outcome A) (t : list event) :
  ret a w = (r, w', t) -> r = Return a /\ w' = w /\ t = [].
Proof. unfold ret. intros H. now finish H. Qed.

End MonadFacts.

(** Splits the first step off the computation in [H]: [a] is what it
    returned, [Hm] its execution, and [H] becomes the rest. *)
Ltac step H a Hm :=
  let e := fresh "e" in
  let w1 := fresh "w" in
  let t1 := fresh "t" in
  let t2 := fresh "t" in
  apply bind_inv in H as [(e & Hm & ->) | (a & w1 & t1 & t2 & Hm & H & ->)].

(** ** Every execution of a turn is one of its runs *)

Section TurnFacts.

Context {W : Type} `{C : Collaborators W}.

Lemma tool_branch_complete (v : pyval) (w : W) :
  let k :=
    (result <- call_tool "weather_tool" v ;;
     weather_result <- lift (first_content_text result) ;;
     city <- lift (getitem v "city") ;;
     weather_prompt_message <-
       get_prompt "weather_response_prompt"
         (Some [("city", city); ("weather", PStr weather_result)]) ;;
     weather_prompt_text <- lift (first_message_text weather_prompt_message) ;;
     logging_info "Weather prompt is %s" [PStr weather_prompt_text] ;;
     model_response <- model_call weather_prompt_text ;;
     ret (Str.join Str.nl ([] ++ [model_response])%list)) in
  forall r w' t, k w = (r, w', t) -> tool_branch v r t.
Proof.
  cbv zeta. intros r w' t.
  unfold bind, call_tool, get_prompt, model_call, chat, call, lift,
    logging_info, emit, ret.
  run_call (session_call_tool "weather_tool" v w);
    [| intros H; finish H; constructor].
  run_pure (first_content_text a);
    [| intros H; finish H; econstructor; eassumption].
  run_pure (getitem v "city");
    [| intros H; finish H; econstructor; eassumption].
  match goal with
  | |- context [session_get_prompt ?n ?a ?w] =>
      run_call (session_get_prompt n a w)
  end; [| intros H; finish H; econstructor; eassumption].
  match goal with
  | |- context [first_message_text ?m] => run_pure (first_message_text m)
  end; [| intros H; finish H; econstructor; eassumption].
  match goal with
  | |- context [ollama_chat ?m ?l ?w] => run_call (ollama_chat m l w)
  end; intros H; finish H; econstructor; eassumption.
Qed.

Lemma process_user_prompt_turn (user_prompt : string) (w : W)
  (r : outcome string) (w' : W) (t : list event) :
  process_user_prompt user_prompt w = (r, w', t) -> turn user_prompt r t.
Proof.
  unfold process_user_prompt. cbv zeta. intros H.
  step H tools Htools.
  { apply call_inv in Htools as [_ ->]. constructor. }
  apply call_inv in Htools as [_ ->].
  step H prompts Hprompts.
  { apply call_inv in Hprompts as [_ ->]. constructor. }
  apply call_inv in Hprompts as [_ ->].
  step H messages Hmessages.
  { apply call_inv in Hmessages as [_ ->]. constructor. }
  apply call_inv in Hmessages as [_ ->].
  step H system_prompt Hsystem.
  { apply lift_inv in Hsystem as (Hs & _ & ->). now constructor. }
  apply lift_inv in Hsystem as (Hs & _ & ->).
  step H response Hresponse.
  { apply call_inv in Hresponse as [_ ->]. now constructor. }
  apply call_inv in Hresponse as [_ ->].
  apply (T_answered user_prompt tools prompts messages system_prompt response);
    [now symmetry |].
  step H v Hv.
  { apply lift_inv in Hv as (Hp & _ & ->). now constructor. }
  apply lift_inv in Hv as (Hp & _ & ->). cbn [app].
  destruct (truthy v) eqn:Tv.
  - step H u Hu.
    { apply emit_inv in Hu as (Hu & _). discriminate. }
    apply emit_inv in Hu as (_ & -> & ->).
    apply tool_branch_complete in H.
    now apply (B_tool response v).
  - step H u Hu.
    { apply emit_inv in Hu as (Hu & _). discriminate. }
    apply emit_inv in Hu as (_ & -> & ->).
    apply ret_inv in H as (-> & _ & ->).
    now apply (B_direct response v).
Qed.

End TurnFacts.

(** ** Reading the runs *)

Section RunFacts.

Context {W : Type} `{C : Collaborators W}.

Lemma turn_answered_inv (u : string) (r : outcome string) (t : list event)
  (response : string) :
  turn u r t ->
  first_model_response t = Some response ->
  exists tools prompts messages system_prompt t',
    first_message_text messages = Return system_prompt
    /\ branch response r t'
    /\ t = (turn_head tools prompts messages system_prompt u response
            ++ t')%list.
Proof.
  intros T F. destruct T; try discriminate.
  cbn in F. injection F as <-.
  now exists tools, prompts, messages, system_prompt, t.
Qed.


Lemma branch_direct_inv (response : string) (r : outcome string)
  (t : list event) (v : pyval) :
  branch response r t ->
  parse_response response = Return v ->
  truthy v = false ->
  r = Return response /\ t = direct_branch_events.
Proof.
  intros B P T. destruct B as [e' P' | v' P' _ | v' r t P' T' _].
  - congruence.
  - now split.
  - congruence.
Qed.

Lemma branch_tool_inv (response : string) (r : outcome string)
  (t : list event) (v : pyval) :
  branch response r t ->
  parse_response response = Return v ->
  truthy v = true ->
  exists t', t = ELog INFO "Tool call with %s" [v] :: t' /\ tool_branch v r t'.
Proof.
  intros B P T. destruct B as [e' P' | v' P' T' | v' r t P' T' B].
  - congruence.
  - congruence.
  - assert (v' = v) by congruence. subst v'. now exists t.
Qed.

(** The tool branch asks for one tool, by the fixed name and with the
    arguments it was entered with, and asks first. *)
Lemma tool_branch_calls (v : pyval) (r : outcome string) (t : list event) :
  tool_branch v r t ->
  exists o t', t = ECallTool "weather_tool" v o :: t'
               /\ tool_calls t = [ECallTool "weather_tool" v o].
Proof. intros B. destruct B; eexists; eexists; split; reflexivity. Qed.

Lemma tool_branch_return_inv (v : pyval) (answer : string) (t : list event) :
  tool_branch v (Return answer) t ->
  exists blocks weather city messages text,
    first_content_text blocks = Return weather
    /\ getitem v "city" = Return city
    /\ first_message_text messages = Return text
    /\ ELog INFO "Tool call with %s" [v] :: t
       = tool_branch_events v blocks city weather messages text
           (Return answer).
Proof.
  intros B. inversion B; subst.
  now exists blocks, weather, city, messages, text.
Qed.

(** A turn asks nothing of the terminal. *)
Lemma turn_reads_nothing (u : string) (r : outcome string) (t : list event) :
  turn u r t -> filter is_input t = [] /\ printed t = [].
Proof.
  intros T. destruct T; try (split; reflexivity).
  destruct H0 as [e' P' | v' P' T' | v' r t P' T' B];
    try (split; reflexivity).
  destruct B; split; reflexivity.
Qed.

End RunFacts.

(** ** Extraction *)

Section ExtractionClaims.

Context {W : Type} `{C : Collaborators W}.

(** C2, as amended.  When the text holds an opening marker, then a single
    line [g] (no newline in it) and a closing fence of three backticks on
    the next line, and the pattern matches at no earlier position of the
    text, [parse_response] returns what [json.loads] returns on [g]: the
    same value, nothing added, removed or converted. *)
Theorem single_line_block_is_parsed (pre g post : string) :
  match_starts_in pre (fence_open ++ g ++ Str.nl ++ "```" ++ post) = false ->
  Str.has_char Str.newline g = false ->
  parse_response (pre ++ fence_open ++ g ++ Str.nl ++ "```" ++ post)
  = json_loads g.
Proof.
  intros Hpre Hg. rewrite parse_response_first_block.
  change (Str.nl ++ "```" ++ post) with (fence_close ++ "`" ++ post) in *.
  now rewrite (first_block_found pre g ("`" ++ post) Hpre Hg).
Qed.

End ExtractionClaims.

(** ** One turn *)

Section TurnClaims.

Context {W : Type} `{C : Collaborators W}.


(** C4, as amended.  When the first answer of the model parses to a truthy
    value [v], the next thing the turn asks for is the tool, by the name
    [weather_tool] and with [v] itself, and it asks for no tool again; and
    when the turn completes, its events are those of the tool branch: the
    tool call, the prompt [weather_response_prompt] with the city of [v] and
    the text of the tool result, and a second call to the model on the text
    of that prompt, whose answer is the answer of the turn.  The model is
    called twice. *)
Theorem tool_branch_sequence (u : string) (w w' : W) (r : outcome string)
  (t : list event) (response : string) (v : pyval) :
  process_user_prompt u w = (r, w', t) ->
  first_model_response t = Some response ->
  parse_response response = Return v ->
  truthy v = true ->
  (exists tools prompts messages system_prompt o rest,
     t = (turn_head tools prompts messages system_prompt u response
          ++ ELog INFO "Tool call with %s" [v]
             :: ECallTool "weather_tool" v o :: rest)%list
     /\ tool_calls rest = [])
  /\ forall answer, r = Return answer ->
       length (model_calls t) = 2
       /\ exists tools prompts messages system_prompt
            blocks weather city messages' text,
            first_message_text messages = Return system_prompt
            /\ first_content_text blocks = Return weather
            /\ getitem v "city" = Return city
            /\ first_message_text messages' = Return text
            /\ t = (turn_head tools prompts messages system_prompt u response
                    ++ tool_branch_events v blocks city weather messages' text
                         (Return answer))%list.
Proof.
  intros H F P T.
  apply process_user_prompt_turn in H.
  destruct (turn_answered_inv _ _ _ _ H F)
    as (tools & prompts & messages & sys & t' & Hs & B & ->).
  destruct (branch_tool_inv _ _ _ _ B P T) as (t'' & -> & TB).
  split.
  - destruct (tool_branch_calls _ _ _ TB) as (o & t3 & -> & E).
    exists tools, prompts, messages, sys, o, t3.
    split; [reflexivity |]. cbn in E. now injection E.
  - intros answer ->.
    destruct (tool_branch_return_inv _ _ _ TB)
      as (blocks & weather & city & messages' & text & Hb & Hc & Hm & E).
    rewrite E. split; [reflexivity |].
    now exists tools, prompts, messages, sys, blocks, weather, city,
      messages', text.
Qed.

(** C5.  When the first answer of the model parses to [None], that answer,
    unchanged, is the answer of the turn; the model was called once, no tool
    was called, the session was asked three things, all of them before the
    model was called, and after the answer of the model the turn only logs
    that there is no tool call. *)
Theorem direct_branch_answer (u : string) (w w' : W) (r : outcome string)
  (t : list event) (response : string) :
  process_user_prompt u w = (r, w', t) ->
  first_model_response t = Some response ->
  parse_response response = Return PNone ->
  r = Return response
  /\ length (model_calls t) = 1
  /\ tool_calls t = []
  /\ length (session_calls t) = 3
  /\ exists tools prompts messages system_prompt,
       t = (turn_head tools prompts messages system_prompt u response
            ++ direct_branch_events)%list.
Proof.
  intros H F P.
  apply process_user_prompt_turn in H.
  destruct (turn_answered_inv _ _ _ _ H F)
    as (tools & prompts & messages & sys & t' & Hs & B & ->).
  destruct (branch_direct_inv _ _ _ _ B P eq_refl) as [-> ->].
  repeat split.
  now exists tools, prompts, messages, sys.
Qed.

(** C6.  A turn that completes called the tool at most once, called the
    model once more than it called the tool, and returns one string: the
    answer of its last call to the model. *)
Theorem one_answer_one_tool (u : string) (w w' : W) (answer : string)
  (t : list event) :
  process_user_prompt u w = (Return answer, w', t) ->
  length (tool_calls t) <= 1
  /\ length (model_calls t) = 1 + length (tool_calls t)
  /\ exists before model messages after,
       t = (before ++ EChat model messages (Return answer) :: after)%list
       /\ model_calls after = [].
Proof.
  intros H.
  apply process_user_prompt_turn in H.
  inversion H as [| | | | | tools prompts messages sys response r t' Hs B];
    subst.
  inversion B as [| v P T | v r t'' P T TB]; subst.
  - repeat split; cbn; try lia.
    eexists [_; _; _], _, _, direct_branch_events.
    split; reflexivity.
  - inversion TB; subst. repeat split; cbn; try lia.
    eexists (turn_head _ _ _ _ _ _ ++ [_; _; _; _])%list, _, _, [].
    split; reflexivity.
Qed.

(** C10.  When the pattern is found in the first answer of the model and the
    text it captured parses to a falsy value, the turn takes the direct
    branch: it returns the answer of the model as it came, fence included,
    calls no tool, fetches no second prompt and calls the model once. *)
Theorem falsy_payload_takes_direct_branch (u : string) (w w' : W)
  (r : outcome string) (t : list event) (response g : string) (v : pyval) :
  process_user_prompt u w = (r, w', t) ->
  first_model_response t = Some response ->
  Re.search TOOL_PATTERN response = Some [g] ->
  json_loads g = Return v ->
  truthy v = false ->
  r = Return response
  /\ tool_calls t = []
  /\ length (filter is_get_prompt t) = 1
  /\ length (model_calls t) = 1
  /\ exists tools prompts messages system_prompt,
       t = (turn_head tools prompts messages system_prompt u response
            ++ direct_branch_events)%list.
Proof.
  intros H F S J T.
  apply process_user_prompt_turn in H.
  destruct (turn_answered_inv _ _ _ _ H F)
    as (tools & prompts & messages & sys & t' & Hs & B & ->).
  assert (P : parse_response response = Return v)
    by (rewrite (parse_response_search _ _ S); exact J).
  destruct (branch_direct_inv _ _ _ _ B P T) as [-> ->].
  repeat split.
  now exists tools, prompts, messages, sys.
Qed.

End TurnClaims.

(** ** The prompt handed to the model *)

Section PromptClaims.

Context {W : Type} `{C : Collaborators W}.

(** C8.  [augmented_model_call] calls the model once, and the text it hands
    over is the system prompt, one newline, and the user prompt: nothing is
    cut (the lengths add up, the system prompt is its beginning, the newline
    follows it, the user prompt is the rest), and the text is the same
    whatever state the collaborators are in. *)
Theorem combined_prompt_exact (system_prompt user_prompt : string) (w : W) :
  let run := augmented_model_call system_prompt user_prompt w in
  let p := system_prompt ++ Str.nl ++ user_prompt in
  snd run = [EChat default_model [MkChatMessage "user" p] (fst (fst run))]
  /\ prompts_sent (snd run) = [p]
  /\ String.length p
     = String.length system_prompt + 1 + String.length user_prompt
  /\ substring 0 (String.length system_prompt) p = system_prompt
  /\ String.get (String.length system_prompt) p = Some Str.newline
  /\ substring (String.length system_prompt + 1) (String.length user_prompt) p
     = user_prompt
  /\ forall w2 : W,
       prompts_sent (snd (augmented_model_call system_prompt user_prompt w2))
       = prompts_sent (snd run).
Proof.
  cbv zeta.
  assert (S : forall w0,
             snd (augmented_model_call system_prompt user_prompt w0)
             = [EChat default_model
                  [MkChatMessage "user" (system_prompt ++ Str.nl ++ user_prompt)]
                  (fst (fst (augmented_model_call system_prompt user_prompt w0)))]).
  { intros w0. unfold augmented_model_call, model_call, chat, call.
    destruct (ollama_chat _ _ w0); reflexivity. }
  repeat split.
  - apply S.
  - now rewrite S.
  - rewrite length_append. cbn. lia.
  - apply substring_prefix.
  - apply get_append_at.
  - replace (system_prompt ++ Str.nl ++ user_prompt)
      with ((system_prompt ++ Str.nl) ++ user_prompt)
      by apply append_assoc.
    replace (String.length system_prompt + 1)
      with (String.length (system_prompt ++ Str.nl))
      by (rewrite length_append; reflexivity).
    apply substring_suffix.
  - intros w2. now rewrite !S.
Qed.

End PromptClaims.

(** ** The loop *)

Section LoopFacts.

Context {W : Type} `{C : Collaborators W}.







End LoopFacts.

Section LoopClaims.

Context {W : Type} `{C : Collaborators W}.



End LoopClaims.

(** ** Concrete turns *)

Section Concrete.

Import Scenario.

(** C1.  A block whose closing fence has two backticks, not three, holds no
    fenced block of the conventional form, and yet [parse_response] returns
    its payload, not [None] (or raises, when the payload is not JSON).  On a
    text with backticks but no opening marker it does return [None]. *)
Theorem two_backtick_fence_is_accepted :
  has_fenced_block (short_fenced paris_json) = false
  /\ Str.contains "```" (paris_json ++ Str.nl ++ "``") = false
  /\ parse_response ("Run `ls` or ```ls -l``` to list the files.")
     = Return PNone
  /\ parse_response (short_fenced paris_json) = Return paris_args
  /\ parse_response (short_fenced "oops")
     = Raise (MkExn "JSONDecodeError"
                "Expecting value: line 1 column 1 (char 0)").
Proof. repeat split. Qed.

(** C2 fails on a payload that spans several lines: the block is fenced as
    it should be and its text is valid JSON, and [parse_response] returns
    [None].  It fails as well on a valid block that another match
    precedes: what is parsed is the earlier text. *)
Lemma multi_line_block_is_missed :
  has_fenced_block (fenced paris_json_lines) = true
  /\ json_loads paris_json_lines = Return paris_args
  /\ Re.search TOOL_PATTERN (fenced paris_json_lines) = None
  /\ parse_response (fenced paris_json_lines) = Return PNone
  /\ parse_response (fenced "oops" ++ Str.nl ++ fenced paris_json)
     = Raise (MkExn "JSONDecodeError"
                "Expecting value: line 1 column 1 (char 0)").
Proof. repeat split. Qed.

(** A block on one line, after an opening marker that is never closed and
    some text, and before more text. *)
Lemma single_line_block_is_parsed_witness :
  parse_response
    ((fence_open ++ "draft" ++ Str.nl ++ "Let me look that up.")
     ++ fence_open ++ paris_json ++ Str.nl ++ "```" ++ " One moment.")
  = json_loads paris_json.
Proof.
  apply (single_line_block_is_parsed
           (fence_open ++ "draft" ++ Str.nl ++ "Let me look that up.")
           paris_json " One moment."); reflexivity.
Defined.



(** C4 fails on the empty object: the extraction returns it, a mapping with
    no entry, and the turn calls no tool, calls the model once and returns
    the first answer of the model. *)
Lemma empty_arguments_call_no_tool :
  let run := process_user_prompt "weather in Paris" answers_empty in
  first_model_response (events_of run) = Some (fenced "{}")
  /\ parse_response (fenced "{}") = Return (PDict [])
  /\ result_of run = Return (fenced "{}")
  /\ tool_calls (events_of run) = []
  /\ length (model_calls (events_of run)) = 1.
Proof. repeat split. Qed.

(** Scenario B: the model asks for the weather in Paris. *)
Lemma tool_branch_sequence_witness :
  let run := process_user_prompt "weather in Paris" asks_weather in
  (exists tools prompts messages system_prompt o rest,
     events_of run
     = (turn_head tools prompts messages system_prompt "weather in Paris"
          (fenced paris_json)
        ++ ELog INFO "Tool call with %s" [paris_args]
           :: ECallTool "weather_tool" paris_args o :: rest)%list
     /\ tool_calls rest = [])
  /\ forall answer, result_of run = Return answer ->
       length (model_calls (events_of run)) = 2
       /\ exists tools prompts messages system_prompt
            blocks weather city messages' text,
            first_message_text messages = Return system_prompt
            /\ first_content_text blocks = Return weather
            /\ getitem paris_args "city" = Return city
            /\ first_message_text messages' = Return text
            /\ events_of run
               = (turn_head tools prompts messages system_prompt
                    "weather in Paris" (fenced paris_json)
                  ++ tool_branch_events paris_args blocks city weather
                       messages' text (Return answer))%list.
Proof.
  cbv zeta.
  apply (tool_branch_sequence "weather in Paris" asks_weather
           (state_of (process_user_prompt "weather in Paris" asks_weather))
           (result_of (process_user_prompt "weather in Paris" asks_weather))
           (events_of (process_user_prompt "weather in Paris" asks_weather))
           (fenced paris_json) paris_args); reflexivity.
Defined.

(** Scenario A: the model answers in plain text. *)
Lemma direct_branch_answer_witness :
  let run := process_user_prompt "What is 2+2?" asks_sum in
  result_of run = Return "4"
  /\ length (model_calls (events_of run)) = 1
  /\ tool_calls (events_of run) = []
  /\ length (session_calls (events_of run)) = 3
  /\ exists tools prompts messages system_prompt,
       events_of run
       = (turn_head tools prompts messages system_prompt "What is 2+2?" "4"
          ++ direct_branch_events)%list.
Proof.
  cbv zeta.
  apply (direct_branch_answer "What is 2+2?" asks_sum
           (state_of (process_user_prompt "What is 2+2?" asks_sum))
           (result_of (process_user_prompt "What is 2+2?" asks_sum))
           (events_of (process_user_prompt "What is 2+2?" asks_sum)) "4"); reflexivity.
Defined.

(** The completed turn of scenario B. *)
Lemma one_answer_one_tool_witness :
  let run := process_user_prompt "weather in Paris" asks_weather in
  length (tool_calls (events_of run)) <= 1
  /\ length (model_calls (events_of run)) = 1 + length (tool_calls (events_of run))
  /\ exists before model messages after,
       events_of run
       = (before
          ++ EChat model messages (Return "It is sunny in Paris.") :: after)%list
       /\ model_calls after = [].
Proof.
  cbv zeta.
  apply (one_answer_one_tool "weather in Paris" asks_weather
           (state_of (process_user_prompt "weather in Paris" asks_weather))
           "It is sunny in Paris."
           (events_of (process_user_prompt "weather in Paris" asks_weather))).
  reflexivity.
Defined.

(** The model answers with a block that holds the empty object. *)
Lemma falsy_payload_takes_direct_branch_witness :
  let run := process_user_prompt "weather in Paris" answers_empty in
  result_of run = Return (fenced "{}")
  /\ tool_calls (events_of run) = []
  /\ length (filter is_get_prompt (events_of run)) = 1
  /\ length (model_calls (events_of run)) = 1
  /\ exists tools prompts messages system_prompt,
       events_of run
       = (turn_head tools prompts messages system_prompt "weather in Paris"
            (fenced "{}")
          ++ direct_branch_events)%list.
Proof.
  cbv zeta.
  apply (falsy_payload_takes_direct_branch "weather in Paris" answers_empty
           (state_of (process_user_prompt "weather in Paris" answers_empty))
           (result_of (process_user_prompt "weather in Paris" answers_empty))
           (events_of (process_user_prompt "weather in Paris" answers_empty))
           (fenced "{}") "{}" (PDict [])); reflexivity.
Defined.



End Concrete.

(** * Further properties of the code *)

(** ** Extraction *)

Section ExtractionFacts.

Context {W : Type} `{C : Collaborators W}.

Lemma contains_app (p a b : string) : Str.contains p (a ++ p ++ b) = true.
Proof.
  induction a as [|x a IH].
  - change ("" ++ p ++ b) with (p ++ b).
    destruct (p ++ b) eqn:E; cbn [Str.contains]; rewrite <- E;
      now rewrite strip_prefix_app.
  - change (String x a ++ p ++ b) with (String x (a ++ p ++ b)).
    cbn [Str.contains]. rewrite IH.
    now destruct (Str.strip_prefix p (String x (a ++ p ++ b))).
Qed.

(** X1.  [parse_response] has three outcomes and no other: [None]; or, on a
    text that holds the opening marker, a line [g] without newline and the
    closing marker, whatever [json.loads] makes of [g], be it a value or the
    error it raises.  It raises nothing of its own. *)
Theorem parse_response_outcomes (text : string) :
  parse_response text = Return PNone
  \/ exists pre g rest,
       text = pre ++ fence_open ++ g ++ fence_close ++ rest
       /\ Str.has_char Str.newline g = false
       /\ Re.search TOOL_PATTERN text = Some [g]
       /\ parse_response text = json_loads g.
Proof.
  rewrite parse_response_first_block, search_first_block.
  destruct (first_block text) as [g|] eqn:E; [right | now left].
  destruct (first_block_elim _ _ E) as [Hg [pre [rest Ht]]].
  exists pre, g, rest. repeat split; assumption || reflexivity.
Qed.

(** X2.  A text that does not hold the opening marker (three backticks,
    [json], newline) is a plain answer: [parse_response] returns [None],
    whatever other backticks or JSON the text has. *)
Theorem no_marker_is_plain_text (text : string) :
  Str.contains fence_open text = false ->
  parse_response text = Return PNone.
Proof.
  intros H. rewrite parse_response_first_block.
  now rewrite (first_block_absent _ H).
Qed.

(** X3.  A text in which no newline is followed by two backticks holds no
    block, whatever opening markers it has: [parse_response] returns
    [None]. *)
Theorem unclosed_fence_is_plain_text (text : string) :
  Str.contains fence_close text = false ->
  parse_response text = Return PNone.
Proof.
  intros H. rewrite parse_response_first_block.
  destruct (first_block text) as [g|] eqn:E; [| reflexivity].
  destruct (first_block_elim _ _ E) as [_ [pre [rest ->]]].
  replace (pre ++ fence_open ++ g ++ fence_close ++ rest)
    with ((pre ++ fence_open ++ g) ++ fence_close ++ rest) in H
    by (now rewrite !append_assoc).
  now rewrite contains_app in H.
Qed.

(** X4.  Only the text up to the first closing marker counts: two answers
    that agree up to there are parsed alike, whatever follows, later blocks
    included. *)
Theorem text_after_first_block_is_ignored (pre g rest rest' : string) :
  Str.contains fence_open pre = false ->
  Str.has_char Str.newline g = false ->
  parse_response (pre ++ fence_open ++ g ++ fence_close ++ rest)
  = parse_response (pre ++ fence_open ++ g ++ fence_close ++ rest').
Proof.
  intros Hpre Hg. rewrite !parse_response_first_block.
  now rewrite !(first_block_intro pre g _ Hpre Hg).
Qed.

End ExtractionFacts.

(** ** One turn, whatever its outcome *)

Section TurnExtras.

Context {W : Type} `{C : Collaborators W}.

(** X5.  However a turn ends, it has called the model at most twice, the
    tool at most once and the session at most five times, and it has not
    called the tool unless the model answered first. *)
Theorem turn_call_bounds (u : string) (w : W) :
  let t := events_of (process_user_prompt u w) in
  length (model_calls t) <= 2
  /\ length (tool_calls t) <= 1
  /\ length (session_calls t) <= 5
  /\ length (tool_calls t) <= length (model_calls t).
Proof.
  cbv zeta. unfold events_of.
  destruct (process_user_prompt u w) as [[r w'] t] eqn:E. cbn [snd].
  apply process_user_prompt_turn in E.
  destruct E as [| | | | | tools prompts messages sys response r t Hs B];
    try (cbn; lia).
  destruct B as [e P | v P T | v r t P T TB]; try (cbn; lia).
  destruct TB; cbn; lia.
Qed.

(** X6.  A turn neither reads from the terminal nor prints: what it has to
    say it returns, or raises. *)
Theorem turn_leaves_terminal_alone (u : string) (w : W) :
  let t := events_of (process_user_prompt u w) in
  filter is_input t = [] /\ printed t = [].
Proof.
  cbv zeta. unfold events_of.
  destruct (process_user_prompt u w) as [[r w'] t] eqn:E. cbn [snd].
  exact (turn_reads_nothing _ _ _ (process_user_prompt_turn _ _ _ _ _ E)).
Qed.

(** Finds the events before the last one of a list that is written out. *)
Ltac split_last :=
  first
    [ exists (@nil event); reflexivity
    | eexists [_]; reflexivity
    | eexists [_; _]; reflexivity
    | eexists [_; _; _]; reflexivity
    | eexists [_; _; _; _]; reflexivity
    | eexists [_; _; _; _; _]; reflexivity
    | eexists [_; _; _; _; _; _]; reflexivity
    | eexists [_; _; _; _; _; _; _]; reflexivity
    | eexists [_; _; _; _; _; _; _; _]; reflexivity ].

(** Goes through the events of a list that is written out, for the one
    [I] says is in it and [F] says failed with [e]. *)
Ltac find_failure I F :=
  cbn in I;
  repeat (destruct I as [<- | I]; [try discriminate F |]);
  try contradiction;
  try match type of F with
      | failure_of (EChat _ _ ?a) = _ =>
          is_var a; destruct a; [discriminate F |]
      end;
  try (cbn in F; injection F as <-; split; [reflexivity | split_last]).

(** X7.  No call is retried and no failure is swallowed: when a request to
    the session (listing, prompt, tool) or a call to the model raises, the
    turn raises that very error, and the failed call is the last thing it
    did. *)
Theorem collaborator_failure_is_fatal (u : string) (w w' : W)
  (r : outcome string) (t : list event) (ev : event) (e : exn) :
  process_user_prompt u w = (r, w', t) ->
  In ev t ->
  failure_of ev = Some e ->
  r = Raise e /\ exists before, t = (before ++ [ev])%list.
Proof.
  intros H I F. apply process_user_prompt_turn in H.
  destruct H as [| | | | | tools prompts messages sys response r t Hs B];
    try (find_failure I F; fail).
  unfold turn_head in *.
  destruct B as [e0 P | v P T | v r t P T TB];
    try (find_failure I F; fail).
  destruct TB; find_failure I F.
Qed.

(** X8.  The city is looked up only after the tool has been called: when
    the extracted value is truthy and has no [city] to give (no such key, or
    no mapping at all), the tool is still called with it, once; the turn
    then raises, without a second prompt or a second call to the model, and
    what it raises is the error of the lookup when the tool gave a text. *)
Theorem missing_city_fails_after_tool_call (u : string) (w w' : W)
  (r : outcome string) (t : list event) (response : string) (v : pyval)
  (e : exn) :
  process_user_prompt u w = (r, w', t) ->
  first_model_response t = Some response ->
  parse_response response = Return v ->
  truthy v = true ->
  getitem v "city" = Raise e ->
  (exists o, tool_calls t = [ECallTool "weather_tool" v o])
  /\ length (model_calls t) = 1
  /\ length (filter is_get_prompt t) = 1
  /\ exists e',
       r = Raise e'
       /\ forall blocks weather,
            In (ECallTool "weather_tool" v (Return blocks)) t ->
            first_content_text blocks = Return weather ->
            e' = e.
Proof.
  intros H F P T G.
  apply process_user_prompt_turn in H.
  destruct (turn_answered_inv _ _ _ _ H F)
    as (tools & prompts & messages & sys & t' & Hs & B & ->).
  destruct (branch_tool_inv _ _ _ _ B P T) as (t'' & -> & TB).
  destruct TB as [e0 | blocks e0 Hb | blocks weather e0 Hb Hc
                 | blocks weather city e0 Hb Hc
                 | blocks weather city msgs e0 Hb Hc
                 | blocks weather city msgs text answer Hb Hc];
    try congruence.
  - repeat split; try (eexists; reflexivity).
    exists e0. split; [reflexivity |].
    intros blocks weather I _. cbn in I.
    repeat (destruct I as [I | I]; [discriminate I |]). contradiction.
  - repeat split; try (eexists; reflexivity).
    exists e0. split; [reflexivity |].
    intros blocks' weather I Hw. cbn in I.
    repeat (destruct I as [I | I]; [try discriminate I |]);
      [| contradiction].
    injection I as <-. congruence.
  - repeat split; try (eexists; reflexivity).
    exists e0. split; [reflexivity |]. intros _ _ _ _. congruence.
Qed.

End TurnExtras.

(** ** The loop, round after round *)

Section LoopExtras.

Context {W : Type} `{C : Collaborators W}.







End LoopExtras.

(** ** Start-up and shutdown *)

Section BootFacts.

Context {W : Type} `{C : Collaborators W} `{L : Lifecycle W}.

Lemma entered_app (a b : list boot_event) :
  entered (a ++ b) = (entered a ++ entered b)%list.
Proof.
  induction a as [|[r [[]|e]|r p o|o|ev] a IH]; cbn; now rewrite ?IH.
Qed.

Lemma exited_app (a b : list boot_event) :
  exited (a ++ b) = (exited a ++ exited b)%list.
Proof.
  induction a as [|[r o|r p o|o|ev] a IH]; cbn; now rewrite ?IH.
Qed.

Lemma client_events_app (a b : list boot_event) :
  client_events (a ++ b) = (client_events a ++ client_events b)%list.
Proof.
  induction a as [|[r o|r p o|o|ev] a IH]; cbn; now rewrite ?IH.
Qed.

Lemma quiet_app (a b : list boot_event) :
  quiet (a ++ b) = quiet a && quiet b.
Proof.
  induction a as [|[r o|r p [b0|e]|o|ev] a IH]; cbn; now rewrite ?IH.
Qed.

Lemma of_client (t : list event) :
  entered (map BClient t) = [] /\ exited (map BClient t) = []
  /\ client_events (map BClient t) = t /\ quiet (map BClient t) = true.
Proof.
  induction t as [|ev t (E1 & E2 & E3 & E4)]; cbn; [easy |].
  now rewrite E3.
Qed.

Lemma tracks_bind {A X : Type} (m : B W A) (f : A -> B W X) :
  (forall stack w, tracks stack (m stack w)) ->
  (forall a stack w, tracks stack (f a stack w)) ->
  forall stack w, tracks stack (bindB m f stack w).
Proof.
  intros Hm Hf stack w. unfold bindB.
  specialize (Hm stack w).
  destruct (m stack w) as [[[[a | e] stack1] w1] t1]; [| exact Hm].
  specialize (Hf a stack1 w1).
  destruct (f a stack1 w1) as [[[r stack2] w2] t2].
  unfold tracks in *. destruct Hm as [-> Hx1], Hf as [-> Hx2].
  rewrite entered_app, exited_app, Hx1, Hx2, rev_app_distr, app_assoc.
  now split.
Qed.

Lemma tracks_client {A : Type} (m : M W A) (stack : list resource) (w : W) :
  tracks stack (client m stack w).
Proof.
  unfold client, tracks. destruct (m w) as [[r w'] t].
  destruct (of_client t) as (-> & -> & _). now split.
Qed.

Lemma tracks_enter (cm : resource) (stack : list resource) (w : W) :
  tracks stack (enter_async_context cm stack w).
Proof.
  unfold enter_async_context, tracks.
  destruct (aenter cm w) as [[[] | e] w']; now split.
Qed.

Lemma tracks_initialize (stack : list resource) (w : W) :
  tracks stack (initialize stack w).
Proof.
  unfold initialize, tracks.
  destruct (session_initialize w) as [o w']. now split.
Qed.

Lemma exit_all_events (stack : list resource) (p : option exn) (w : W) :
  match exit_all stack p w with
  | (p', w', t) =>
      exited t = stack /\ entered t = [] /\ client_events t = []
      /\ (quiet t = true -> p' = p \/ p' = None)
  end.
Proof.
  revert p w. induction stack as [|cm stack IH]; intros p w.
  - cbn. auto.
  - cbn [exit_all]. destruct (aexit cm p w) as [o w'].
    match goal with
    | |- context [exit_all stack ?q w'] => specialize (IH q w')
    end.
    destruct (exit_all stack _ w') as [[p' w''] t].
    destruct IH as (E1 & E2 & E3 & E4).
    cbn [exited entered client_events]. rewrite E1.
    repeat split; try assumption.
    destruct o as [[|] | e]; cbn [quiet]; intros Q;
      try discriminate Q; destruct (E4 Q) as [-> | ->]; auto.
Qed.

(** The runs of [connect_to_server]: the four steps in order, and the
    announcement when none of them failed. *)
Lemma connect_cases (path : string) (stack : list resource) (w : W) :
  let stdio := StdioClient "python" [path] in
  match connect_to_server path stack w with
  | (r, stack', w', t) =>
      (exists tools,
         r = Return tt
         /\ t = [BEnter stdio (Return tt); BEnter SessionContext (Return tt);
                 BInitialize (Return tt);
                 BClient (EListTools (Return tools));
                 BClient
                   (EPrint
                      (Str.nl ++ "Connected to server with tools: "
                       ++ Repr.repr_list (map tool_name tools)))])
      \/ (exists e,
            r = Raise e
            /\ (t = [BEnter stdio (Raise e)]
                \/ t = [BEnter stdio (Return tt);
                        BEnter SessionContext (Raise e)]
                \/ t = [BEnter stdio (Return tt);
                        BEnter SessionContext (Return tt);
                        BInitialize (Raise e)]
                \/ t = [BEnter stdio (Return tt);
                        BEnter SessionContext (Return tt);
                        BInitialize (Return tt);
                        BClient (EListTools (Raise e))]))
  end.
Proof.
  cbv zeta.
  unfold connect_to_server, bindB, enter_async_context, initialize, client,
    list_tools, call, print, emit.
  destruct (aenter (StdioClient "python" [path]) w) as [[[] | e] w1];
    [| right; exists e; auto].
  destruct (aenter SessionContext w1) as [[[] | e] w2];
    [| right; exists e; auto].
  destruct (session_initialize w2) as [[[] | e] w3];
    [| right; exists e; auto].
  destruct (session_list_tools w3) as [[tools | e] w4];
    [| right; exists e; cbn; auto 6].
  left. exists tools. split; reflexivity.
Qed.

Lemma cleanup_run (stack : list resource) (w : W) :
  match cleanup stack w with
  | (r, stack', w', t) =>
      exited t = stack
      /\ stack' = []
      /\ entered t = []
      /\ client_events t = []
      /\ (quiet t = true -> r = Return tt)
  end.
Proof.
  unfold cleanup, aclose.
  assert (E := exit_all_events stack None w).
  destruct (exit_all stack None w) as [[[e |] w'] t];
    destruct E as (E1 & E2 & E3 & E4); repeat split; try assumption.
  intros Q. destruct (E4 Q); discriminate.
Qed.

Lemma connect_tracks (path : string) (stack : list resource) (w : W) :
  tracks stack (connect_to_server path stack w).
Proof.
  unfold connect_to_server.
  repeat (apply tracks_bind; intros);
    auto using tracks_enter, tracks_initialize, tracks_client.
Qed.

End BootFacts.

Section BootClaims.

Context {W : Type} `{C : Collaborators W} `{L : Lifecycle W}.

(** X13.  [cleanup] leaves every context on the stack, each once and the
    latest first, also when leaving one of them raises; it empties the
    stack, and it raises only when a context raised while it was left. *)
Theorem cleanup_leaves_every_context (stack : list resource) (w : W) :
  match cleanup stack w with
  | (r, stack', w', t) =>
      exited t = stack
      /\ stack' = []
      /\ entered t = []
      /\ client_events t = []
      /\ (quiet t = true -> r = Return tt)
  end.
Proof. exact (cleanup_run stack w). Qed.

(** X14.  Whether [connect_to_server] succeeds or fails on the way, every
    context it has entered is on the exit stack when it is done, the latest
    on top, and it has left none. *)
Theorem connect_tracks_every_context (path : string)
  (stack : list resource) (w : W) :
  match connect_to_server path stack w with
  | (_, stack', _, t) =>
      stack' = (rev (entered t) ++ stack)%list /\ exited t = []
  end.
Proof. exact (connect_tracks path stack w). Qed.

(** X15.  [connect_to_server] starts the server as [python] with the script
    path as its one argument, opens the session on it, initializes the
    session and lists the tools, in that order, and only then prints their
    names, as the [repr] of the list of names; when a step fails it prints
    nothing and raises the error of that step. *)
Theorem connect_announces_tools_last (path : string)
  (stack : list resource) (w : W) :
  match connect_to_server path stack w with
  | (Return _, stack', _, t) =>
      exists tools,
        t = [BEnter (StdioClient "python" [path]) (Return tt);
             BEnter SessionContext (Return tt);
             BInitialize (Return tt);
             BClient (EListTools (Return tools));
             BClient
               (EPrint
                  (Str.nl ++ "Connected to server with tools: "
                   ++ Repr.repr_list (map tool_name tools)))]
        /\ stack' = SessionContext :: StdioClient "python" [path] :: stack
  | (Raise e, _, _, t) =>
      printed (client_events t) = []
      /\ exists before ev,
           t = (before ++ [ev])%list
           /\ (ev = BEnter (StdioClient "python" [path]) (Raise e)
               \/ ev = BEnter SessionContext (Raise e)
               \/ ev = BInitialize (Raise e)
               \/ ev = BClient (EListTools (Raise e)))
  end.
Proof.
  assert (K := connect_cases path stack w).
  assert (T := connect_tracks path stack w).
  cbv zeta in K.
  destruct (connect_to_server path stack w) as [[[[[] | e] stack'] w'] t].
  - destruct K as [(tools & _ & ->) | (e & Hr & _)]; [| discriminate Hr].
    exists tools. split; [reflexivity |]. now destruct T as [-> _].
  - destruct K as [(tools & Hr & _) | (e' & Hr & K)]; [discriminate Hr |].
    injection Hr as <-.
    destruct K as [-> | [-> | [-> | ->]]]; (split; [reflexivity |]).
    + exists [], (BEnter (StdioClient "python" [path]) (Raise e)).
      split; [reflexivity | tauto].
    + eexists [_], (BEnter SessionContext (Raise e)).
      split; [reflexivity | tauto].
    + eexists [_; _], (BInitialize (Raise e)).
      split; [reflexivity | tauto].
    + eexists [_; _; _], (BClient (EListTools (Raise e))).
      split; [reflexivity | tauto].
Qed.

Lemma main_body_tracks (fuel : nat) (w : W) :
  tracks []
    (bindB (connect_to_server "weather_server.py")
       (fun _ => client (chat_loop fuel)) [] w).
Proof.
  apply tracks_bind; intros.
  - exact (connect_tracks _ _ _).
  - apply tracks_client.
Qed.

(** X16.  When [main] is done, however it ends (the user quit, the
    connection failed on the way, leaving a context raised), every context
    it entered has been left, in the reverse of the order they were entered
    in, and the exit stack is empty; while the loop is still running none
    has been left and all are on the stack. *)
Theorem main_releases_what_it_entered (fuel : nat) (w : W) :
  match main fuel w with
  | (Return None, stack, _, t) =>
      stack = rev (entered t) /\ exited t = []
  | (_, stack, _, t) =>
      stack = [] /\ exited t = rev (entered t)
  end.
Proof.
  unfold main. cbv zeta.
  assert (T := main_body_tracks fuel w).
  destruct (bindB _ _ [] w) as [[[r1 st1] w1] t1].
  destruct T as [T1 T2]. rewrite app_nil_r in T1.
  assert (K := cleanup_run st1 w1).
  destruct r1 as [[[] |] | e1]; [| now split | ];
    destruct (cleanup st1 w1) as [[[[[] | e2] st2] w2] t2];
    destruct K as (K1 & -> & K3 & _);
    rewrite exited_app, entered_app, T2, K1, K3, app_nil_r; now split.
Qed.

(** X17.  When connecting fails, no round of the loop is run: [main] reads
    no line and calls no model, and it ends by raising; what it raises is
    the error of the connection, unless a context raised while it was
    left. *)
Theorem failed_connect_skips_loop (w w1 : W) (e : exn)
  (stack1 : list resource) (t1 : list boot_event) (fuel : nat) :
  connect_to_server "weather_server.py" [] w = (Raise e, stack1, w1, t1) ->
  match main fuel w with
  | (r, _, _, t) =>
      filter is_input (client_events t) = []
      /\ model_calls (client_events t) = []
      /\ (exists e', r = Raise e')
      /\ (quiet t = true -> r = Raise e)
  end.
Proof.
  intros H. unfold main. cbv zeta. unfold bindB at 1. rewrite H.
  assert (K := connect_cases "weather_server.py" [] w).
  cbv zeta in K. rewrite H in K.
  destruct K as [(tools & Hr & _) | (e' & Hr & K)]; [discriminate Hr |].
  assert (Q := cleanup_run stack1 w1).
  destruct (cleanup stack1 w1) as [[[[[] | e2] st2] w2] t2];
    destruct Q as (_ & _ & _ & Q3 & Q4);
    rewrite client_events_app, Q3, app_nil_r, quiet_app;
    repeat split;
    try (destruct K as [-> | [-> | [-> | ->]]]; reflexivity);
    eauto.
  intros Qt. apply andb_prop in Qt as [_ Qt].
  specialize (Q4 Qt). discriminate Q4.
Qed.

(** X18.  When the connection was made and the loop was left through the
    quit token, [main] ends normally, unless a context raises while it is
    left: it raises in that case only, and the exit stack is empty either
    way. *)
Theorem main_after_quit_ends_normally (w w1 : W)
  (stack1 : list resource) (t1 : list boot_event) (fuel : nat) :
  connect_to_server "weather_server.py" [] w = (Return tt, stack1, w1, t1) ->
  result_of (chat_loop fuel w1) = Return (Some tt) ->
  match main fuel w with
  | (r, stack, _, t) =>
      stack = []
      /\ (quiet t = true -> r = Return (Some tt))
      /\ (r = Return (Some tt) \/ exists e, r = Raise e /\ quiet t = false)
  end.
Proof.
  intros H Hq. unfold main. cbv zeta. unfold bindB at 1. rewrite H.
  unfold client, result_of in *.
  destruct (chat_loop fuel w1) as [[r w2] t2]. cbn [fst] in Hq. subst r.
  assert (Q := cleanup_run stack1 w2).
  destruct (cleanup stack1 w2) as [[[[[] | e2] st3] w3] t3];
    destruct Q as (_ & -> & _ & _ & Q4).
  - repeat split. now left.
  - assert (Qt : quiet t3 = false)
      by (destruct (quiet t3); [now specialize (Q4 eq_refl) | reflexivity]).
    rewrite !quiet_app, Qt, !andb_false_r.
    repeat split; [discriminate |]. right. now exists e2.
Qed.

End BootClaims.

(** ** Concrete runs of the further properties *)

Section ConcreteExtras.

Import Scenario.

(** A text with backticks and JSON in it, and no opening marker. *)
Lemma no_marker_is_plain_text_witness :
  parse_response ("Use `json`: " ++ paris_json ++ " or ```ls```")
  = Return PNone.
Proof.
  apply (no_marker_is_plain_text
           ("Use `json`: " ++ paris_json ++ " or ```ls```")).
  reflexivity.
Defined.

(** A block that is opened and never closed. *)
Lemma unclosed_fence_is_plain_text_witness :
  parse_response (fence_open ++ paris_json) = Return PNone.
Proof.
  apply (unclosed_fence_is_plain_text (fence_open ++ paris_json)).
  reflexivity.
Defined.

(** A valid block followed by nothing, and followed by a block that is not
    JSON. *)
Lemma text_after_first_block_is_ignored_witness :
  parse_response ("Here: " ++ fence_open ++ paris_json ++ fence_close ++ "`")
  = parse_response
      ("Here: " ++ fence_open ++ paris_json ++ fence_close
       ++ "` and " ++ fenced "oops").
Proof.
  apply (text_after_first_block_is_ignored "Here: " paris_json "`"
           ("` and " ++ fenced "oops")); reflexivity.
Defined.

(** The model asks for the weather and the tool cannot be reached. *)
Lemma collaborator_failure_is_fatal_witness :
  let run := process_user_prompt "weather in Paris" Outage.tool_down in
  let call := ECallTool "weather_tool" paris_args (Raise Outage.closed) in
  result_of run = Raise Outage.closed
  /\ exists before, events_of run = (before ++ [call])%list.
Proof.
  cbv zeta.
  apply (collaborator_failure_is_fatal "weather in Paris" Outage.tool_down
           (state_of (process_user_prompt "weather in Paris" Outage.tool_down))
           (result_of (process_user_prompt "weather in Paris" Outage.tool_down))
           (events_of (process_user_prompt "weather in Paris" Outage.tool_down))
           (ECallTool "weather_tool" paris_args (Raise Outage.closed))
           Outage.closed).
  - reflexivity.
  - simpl. tauto.
  - reflexivity.
Defined.

(** The model answers with a town, not a city. *)
Lemma missing_city_fails_after_tool_call_witness :
  let run := process_user_prompt "weather in Paris" Outage.asks_town in
  let v := PDict [("town", PStr "Paris")] in
  (exists o, tool_calls (events_of run) = [ECallTool "weather_tool" v o])
  /\ length (model_calls (events_of run)) = 1
  /\ length (filter is_get_prompt (events_of run)) = 1
  /\ exists e',
       result_of run = Raise e'
       /\ forall blocks weather,
            In (ECallTool "weather_tool" v (Return blocks)) (events_of run) ->
            first_content_text blocks = Return weather ->
            e' = MkExn "KeyError" "'city'".
Proof.
  cbv zeta.
  apply (missing_city_fails_after_tool_call "weather in Paris"
           Outage.asks_town
           (state_of (process_user_prompt "weather in Paris" Outage.asks_town))
           (result_of (process_user_prompt "weather in Paris" Outage.asks_town))
           (events_of (process_user_prompt "weather in Paris" Outage.asks_town))
           (fenced town_json) (PDict [("town", PStr "Paris")])
           (MkExn "KeyError" "'city'")); reflexivity.
Defined.




End ConcreteExtras.

Section ConcreteStartup.

Import Startup.

(** The server script is missing. *)
Lemma failed_connect_skips_loop_witness :
  match main 5 no_server with
  | (r, _, _, t) =>
      filter is_input (client_events t) = []
      /\ model_calls (client_events t) = []
      /\ (exists e', r = Raise e')
      /\ (quiet t = true
          -> r = Raise (MkExn "FileNotFoundError" "No such file or directory"))
  end.
Proof.
  apply (failed_connect_skips_loop no_server no_server
           (MkExn "FileNotFoundError" "No such file or directory") []
           [BEnter (StdioClient "python" ["weather_server.py"])
              (Raise (MkExn "FileNotFoundError" "No such file or directory"))]
           5).
  reflexivity.
Defined.

(** The user asks one question and quits. *)
Lemma main_after_quit_ends_normally_witness :
  match main 5 one_question with
  | (r, stack, _, t) =>
      stack = []
      /\ (quiet t = true -> r = Return (Some tt))
      /\ (r = Return (Some tt) \/ exists e, r = Raise e /\ quiet t = false)
  end.
Proof.
  apply (main_after_quit_ends_normally one_question
           (snd (fst (connect_to_server "weather_server.py" [] one_question)))
           (snd (fst (fst
              (connect_to_server "weather_server.py" [] one_question))))
           (snd (connect_to_server "weather_server.py" [] one_question)) 5);
    reflexivity.
Defined.

End ConcreteStartup.
